(** * Flutter analyzer: reduction of the results tensor and root finding

    Shallow embedding of [get_flutter] and [write_roots] from
    [src/flutter_analyzer.py].

    The numerical part of [get_flutter] starts where the parsed response is
    available (source line 27) and is embedded from there on: the file lookup
    and the solver-output parser before that line are external to it.

    numpy's [float64] is IEEE 754 binary64, which is what Rocq's primitive
    floats are, so the code is run on [PrimFloat.float].  The loops themselves
    do not depend on the arithmetic, so they are written once over a small
    interface [Arith] with two instances: [float64] (the arithmetic of the
    code) and [exactQ] (rationals, the arithmetic the interpolation formula is
    usually read in). *)

From Stdlib Require Import ZArith QArith Floats String Ascii List Lia Lqa DecimalString.
From stdpp Require Import base option list sorting gmap.

Local Open Scope nat_scope.

(** * The program *)

(** ** Arithmetic *)

Class Arith (num : Type) := {
  nzero : num;                 (* the fill value of [np.zeros], and the literal [0] *)
  nadd : num → num → num;
  nsub : num → num → num;
  nmul : num → num → num;
  ndiv : num → num → num;
  nltb : num → num → bool;     (* [x < y] *)
}.

#[export] Instance float64 : Arith float := {|
  nzero := PrimFloat.zero;
  nadd := PrimFloat.add;
  nsub := PrimFloat.sub;
  nmul := PrimFloat.mul;
  ndiv := PrimFloat.div;
  nltb := PrimFloat.ltb;
|}.

Definition Qltb (x y : Q) : bool := negb (Qle_bool y x).

#[export] Instance exactQ : Arith Q := {|
  nzero := 0%Q;
  nadd := Qplus;
  nsub := Qminus;
  nmul := Qmult;
  ndiv := Qdiv;
  nltb := Qltb;
|}.

(** ** Exceptions *)

Inductive error := IndexError | KeyError.

Inductive result (A : Type) :=
  | Ok (a : A)
  | Raise (e : error).
Arguments Ok {A} a.
Arguments Raise {A} e.

#[export] Instance result_ret : MRet result := λ A a, Ok a.
#[export] Instance result_bind : MBind result := λ A B k m,
  match m with Ok a => k a | Raise e => Raise e end.

Definition of_option {A} (e : error) (o : option A) : result A :=
  match o with Some a => Ok a | None => Raise e end.

(** [for i in range(n): body], the body threading the variables it assigns. *)
Fixpoint for_each {St} (body : nat → St → result St) (l : list nat) (s : St) : result St :=
  match l with
  | [] => Ok s
  | i :: l' => s' ← body i s; for_each body l' s'
  end.

Definition for_range {St} (n : nat) (body : nat → St → result St) (s : St) : result St :=
  for_each body (seq 0 n) s.

(** ** Arrays *)

(** [x[i]] on a one-dimensional array. *)
Definition getitem {A} (x : list A) (i : nat) : result A :=
  of_option IndexError (x !! i).

(** [x[i] = v]: in place, [IndexError] out of range. *)
Definition setitem {A} (x : list A) (i : nat) (v : A) : result (list A) :=
  if decide (i < length x) then Ok (<[i:=v]> x) else Raise IndexError.

(** [x[i, j] = v] on a two-dimensional array stored row by row. *)
Definition setitem2 {A} (x : list (list A)) (i j : nat) (v : A) : result (list (list A)) :=
  row ← getitem x i;
  row' ← setitem row j v;
  Ok (<[i:=row']> x).

(** [x[:, j]]: column [j] of a two-dimensional array ([get_flutter] takes it
    with [j] below the number of columns). *)
Fixpoint column {A} (x : list (list A)) (j : nat) : result (list A) :=
  match x with
  | [] => Ok []
  | row :: x' => v ← getitem row j; c ← column x' j; Ok (v :: c)
  end.

(** [np.zeros(n)] and [np.zeros([n, m])]. *)
Definition zeros {num : Type} `{!Arith num} (n : nat) : list num := replicate n nzero.
Definition zeros2 {num : Type} `{!Arith num} (n m : nat) : list (list num) := replicate n (zeros m).

(** The results tensor [response.results]: a three-dimensional array indexed
    [mode, flow step, column].  The shape is kept beside the data because an
    array with no mode still has a number of steps. *)
Record ndarray3 (num : Type) := {
  num_modes : nat;
  num_steps : nat;
  num_columns : nat;
  results : list (list (list num));
}.
Arguments num_modes {num} _.
Arguments num_steps {num} _.
Arguments num_columns {num} _.
Arguments results {num} _.

(** [response.results[i, j, k]]. *)
Definition getitem3 {num : Type} (response : ndarray3 num) (i j k : nat) : result num :=
  mode ← getitem (results response) i;
  row ← getitem mode j;
  getitem row k.

(** ** [get_flutter] *)

Section GetFlutter.
Context {num : Type} `{!Arith num}.

Definition series : Type := list num * list (list num) * list (list num).

(** Source lines 34-36: the body of the two nested loops. *)
Definition reduce_step (response : ndarray3 num) (i_mode i_step : nat)
    (s : series) : result series :=
  let '(velocities, frequencies, dampings) := s in
  v ← getitem3 response i_mode i_step 2;
  velocities ← setitem velocities i_step v;
  f ← getitem3 response i_mode i_step 4;
  frequencies ← setitem2 frequencies i_step i_mode f;
  d ← getitem3 response i_mode i_step 3;
  dampings ← setitem2 dampings i_step i_mode d;
  Ok (velocities, frequencies, dampings).

(** Source lines 27-36: "Prepare data by modes". *)
Definition reduce_results (response : ndarray3 num) : result series :=
  let velocities := zeros (num_steps response) in
  let dampings := zeros2 (num_steps response) (num_modes response) in
  let frequencies := zeros2 (num_steps response) (num_modes response) in
  for_range (num_modes response) (λ i_mode,
    for_range (num_steps response) (λ i_step,
      reduce_step response i_mode i_step))
    (velocities, frequencies, dampings).

(** Source line 49. *)
Definition interpolate (fa fb a b : num) : num :=
  nadd (nmul (ndiv fa (nsub fa fb)) (nsub b a)) a.

(** Source lines 44-50: the body of the loop over the steps of one mode. *)
Definition root_step (velocities mode_damping : list num) (i_step : nat)
    (mode_roots : list num) : result (list num) :=
  fa ← getitem mode_damping i_step;
  fb ← getitem mode_damping (i_step + 1);
  if nltb (nmul fa fb) nzero then
    a ← getitem velocities i_step;
    b ← getitem velocities (i_step + 1);
    let root := interpolate fa fb a b in
    Ok (mode_roots ++ [root])
  else Ok mode_roots.

(** Source lines 42-50: the roots of one mode. *)
Definition find_mode_roots (n_steps : nat) (velocities mode_damping : list num)
    : result (list num) :=
  for_range (n_steps - 1) (root_step velocities mode_damping) [].

(** Source lines 39-51: "Find roots". *)
Definition find_roots (n_modes n_steps : nat) (velocities : list num)
    (dampings : list (list num)) : result (gmap nat (list num)) :=
  for_range n_modes (λ i_mode roots,
    mode_damping ← column dampings i_mode;
    mode_roots ← find_mode_roots n_steps velocities mode_damping;
    Ok (<[i_mode := mode_roots]> roots)) ∅.

Definition get_flutter (response : ndarray3 num)
    : result (list num * list (list num) * list (list num) * gmap nat (list num)) :=
  '(velocities, frequencies, dampings) ← reduce_results response;
  roots ← find_roots (num_modes response) (num_steps response) velocities dampings;
  Ok (velocities, frequencies, dampings, roots).

End GetFlutter.

(** ** [write_roots] *)

(** [str(n)] for a natural number given as an integer. *)
Definition decimal (n : Z) : string :=
  NilEmpty.string_of_uint (N.to_uint (Z.to_N n)).

(** [f"{n:2d}"]: decimal, right-aligned in a field of width 2. *)
Definition format_2d (n : nat) : string :=
  ((if (n <? 10)%nat then " " else "") ++ decimal (Z.of_nat n))%string.

(** The quotient [n / d] rounded to the nearest integer, ties to even. *)
Definition round_half_even (n d : Z) : Z :=
  let q := (n / d)%Z in
  match (2 * (n mod d) ?= d)%Z with
  | Lt => q
  | Gt => (q + 1)%Z
  | Eq => if Z.even q then q else (q + 1)%Z
  end.

(** [m * 2^e] in thousandths, correctly rounded. *)
Definition thousandths (m : positive) (e : Z) : Z :=
  if (0 <=? e)%Z then (Z.pos m * 1000 * 2 ^ e)%Z
  else round_half_even (Z.pos m * 1000) (2 ^ (- e)).

Definition pad3 (n : Z) : string :=
  ((if (n <? 100)%Z then "0" else "") ++ (if (n <? 10)%Z then "0" else "")
   ++ decimal n)%string.

(** [f"{x:.3f}"]: Python prints the correctly rounded decimal expansion of the
    binary value with three digits after the point, the sign first (also for
    a negative zero), and [nan], [inf], [-inf] for the special values. *)
Definition format_3f (x : float) : string :=
  match Prim2SF x with
  | S754_nan => "nan"
  | S754_infinity s => if s then "-inf" else "inf"
  | S754_zero s => (if s then "-" else "") ++ "0.000"
  | S754_finite s m e =>
      let n := thousandths m e in
      (if s then "-" else "") ++ decimal (n / 1000)%Z ++ "." ++ pad3 (n mod 1000)%Z
  end%string.

(** What [write_roots] leaves behind: the lines printed and the text written
    to the output file. *)
Record output := {
  printed : list string;
  file : string;
}.

(** Source lines 74-78. *)
Definition write_line (i_mode : nat) (values : list float) (out : output) : output :=
  let header := ("Mode " ++ format_2d (i_mode + 1) ++ ": ")%string in
  let data := String.concat ", " (map format_3f values) in
  let line := (header ++ data)%string in
  {| printed := printed out ++ [line];
     file := (file out ++ line ++ String (ascii_of_nat 10) "")%string |}.

(** Source lines 71-78: the loop over the modes; a missing key ends it with
    [KeyError], after what was written for the modes before. *)
Fixpoint write_modes (roots : gmap nat (list float)) (modes : list nat)
    (out : output) : output * option error :=
  match modes with
  | [] => (out, None)
  | i_mode :: modes' =>
      match roots !! i_mode with
      | None => (out, Some KeyError)
      | Some values =>
          write_modes roots modes'
            (if 0 <? length values then write_line i_mode values out else out)
      end
  end.

(** Source lines 69-78; the name of the output file plays no role in what is
    written. *)
Definition write_roots (roots : gmap nat (list float)) : output * option error :=
  let num_modes := size roots in
  write_modes roots (seq 0 num_modes) {| printed := []; file := "" |}.

(** ** [plot_vg]

    [plot_vg] of [flutter_analyzer.py] and [FlutterCanvas.plot_vg] of
    [flutter_app.py] draw the same curves in the same order; they differ in
    fonts, captions and layout, which carry no data.  A figure is modelled by
    what is drawn on it: the curves of the two axes, the title and the labels
    of the legend. *)

(** A two-dimensional numpy array with its shape. *)
Record ndarray2 (num : Type) := {
  n_rows : nat;
  n_cols : nat;
  cells : list (list num);
}.
Arguments n_rows {num} _.
Arguments n_cols {num} _.
Arguments cells {num} _.

(** What can go wrong while plotting: an exception of the code so far, or the
    [ValueError] matplotlib raises for data of different lengths. *)
Inductive exception :=
  | Builtin (e : error)
  | ValueError.

(** [a[:, j]] with the bounds check of numpy. *)
Definition getcolumn {num : Type} (a : ndarray2 num) (j : nat) : result (list num) :=
  if decide (j < n_cols a) then column (cells a) j else Raise IndexError.

Record curve (num : Type) := {
  xdata : list num;
  ydata : list num;
  label : string;
}.
Arguments xdata {num} _.
Arguments ydata {num} _.
Arguments label {num} _.

Record figure (num : Type) := {
  damping_axes : list (curve num);
  frequency_axes : list (curve num);
  title : option string;
  legend : option (list string);
}.
Arguments damping_axes {num} _.
Arguments frequency_axes {num} _.
Arguments title {num} _.
Arguments legend {num} _.

(** A figure after [clf()], or a new one. *)
Definition empty_figure {num : Type} : figure num :=
  {| damping_axes := []; frequency_axes := []; title := None; legend := None |}.

(** [for j in modes: ax.plot(flow, a[:, j], label=f"{j+1}", marker=".")]:
    the curves on the axes so far, and the exception that ended the loop, if
    any. *)
Fixpoint plot_modes {num : Type} (flow : list num) (a : ndarray2 num)
    (modes : list nat) (drawn : list (curve num))
    : list (curve num) * option exception :=
  match modes with
  | [] => (drawn, None)
  | j :: modes' =>
      match getcolumn a j with
      | Raise e => (drawn, Some (Builtin e))
      | Ok y =>
          if decide (length flow = length y) then
            plot_modes flow a modes'
              (drawn ++ [{| xdata := flow; ydata := y;
                            label := decimal (Z.of_nat (j + 1)) |}])
          else (drawn, Some ValueError)
      end
  end.

(** [flutter_analyzer.py] lines 95-121, [flutter_app.py] lines 37-68. *)
Definition plot_vg {num : Type} (flow : list num) (freqs deltas : ndarray2 num)
    (modes : list nat) (name : string) : figure num * option exception :=
  let num_modes := n_cols freqs in
  let modes := match modes with [] => seq 0 num_modes | _ :: _ => modes end in
  match plot_modes flow deltas modes [] with
  | (axes0, Some e) =>
      ({| damping_axes := axes0; frequency_axes := [];
          title := None; legend := None |}, Some e)
  | (axes0, None) =>
      match plot_modes flow freqs modes [] with
      | (axes1, Some e) =>
          ({| damping_axes := axes0; frequency_axes := axes1;
              title := Some name; legend := None |}, Some e)
      | (axes1, None) =>
          ({| damping_axes := axes0; frequency_axes := axes1;
              title := Some name; legend := Some (map label axes0) |}, None)
      end
  end.

(** ** The root dictionary with its order

    A Python dictionary lists its items in the order the keys were first
    inserted, and [FileTab.analyze_file] reads the roots in that order. *)

Definition pydict (V : Type) : Type := list (nat * V).

(** [d[k] = v]. *)
Fixpoint pydict_set {V} (d : pydict V) (k : nat) (v : V) : pydict V :=
  match d with
  | [] => [(k, v)]
  | (k', v') :: d' =>
      if decide (k' = k) then (k, v) :: d' else (k', v') :: pydict_set d' k v
  end.

Section GetFlutterItems.
Context {num : Type} `{!Arith num}.

(** Source lines 39-51 of [flutter_analyzer.py], the dictionary with its
    order. *)
Definition find_roots_items (n_modes n_steps : nat) (velocities : list num)
    (dampings : list (list num)) : result (pydict (list num)) :=
  for_range n_modes (λ i_mode roots,
    mode_damping ← column dampings i_mode;
    mode_roots ← find_mode_roots n_steps velocities mode_damping;
    Ok (pydict_set roots i_mode mode_roots)) [].

(** [get_flutter], returning the arrays with their shapes and the dictionary
    with its order. *)
Definition get_flutter_items (response : ndarray3 num)
    : result (list num * ndarray2 num * ndarray2 num * pydict (list num)) :=
  '(velocities, frequencies, dampings) ← reduce_results response;
  roots ← find_roots_items (num_modes response) (num_steps response)
             velocities dampings;
  Ok (velocities,
      {| n_rows := num_steps response; n_cols := num_modes response;
         cells := frequencies |},
      {| n_rows := num_steps response; n_cols := num_modes response;
         cells := dampings |},
      roots).

End GetFlutterItems.

(** ** [FileTab] ([flutter_app.py] lines 115-215)

    The widgets of a tab are modelled by what they hold: the canvas by its
    figure, the labels by their texts. *)

Record FileTab := {
  file_name : string;
  modes : list nat;
  result_cache : option (list float * ndarray2 float * ndarray2 float
                         * pydict (list float));
  canvas : figure float;
  results_label : string;
  mode_label : string;
}.

(** Lines 195-199: the text of the results label. *)
Definition results_text (roots : pydict (list float)) : string :=
  fold_left (λ results_text '(mode, values),
    if 0 <? length values then
      let values_str := String.concat ", " (map format_3f values) in
      (results_text ++ "Mode " ++ decimal (Z.of_nat (mode + 1)) ++ ": "
       ++ values_str ++ String (ascii_of_nat 10) "")%string
    else results_text) roots ("Flutter Roots:" ++ String (ascii_of_nat 10) "")%string.

(** Lines 185-204, on the response the parser has read: the tab afterwards,
    and the exception shown in the message box, if any. *)
Definition analyze_file (tab : FileTab) (response : ndarray3 float)
    : FileTab * option exception :=
  match get_flutter_items response with
  | Raise e => (tab, Some (Builtin e))
  | Ok (velocities, frequencies, dampings, roots) =>
      let result_cache := Some (velocities, frequencies, dampings, roots) in
      match plot_vg velocities frequencies dampings (modes tab) (file_name tab) with
      | (fig, Some e) =>
          ({| file_name := file_name tab; modes := modes tab;
              result_cache := result_cache; canvas := fig;
              results_label := results_label tab;
              mode_label := mode_label tab |}, Some e)
      | (fig, None) =>
          ({| file_name := file_name tab; modes := modes tab;
              result_cache := result_cache; canvas := fig;
              results_label := results_text roots;
              mode_label := mode_label tab |}, None)
      end
  end.

(** Lines 117-182 of [FileTab.__init__]: the tab before its first analysis,
    for the base name of its file. *)
Definition new_tab (file_name : string) : FileTab :=
  {| file_name := file_name; modes := []; result_cache := None;
     canvas := empty_figure;
     results_label := "Flutter Roots:";
     mode_label := "Показаны все моды" |}.

(** [FileTab.__init__], with its last line 183. *)
Definition FileTab_init (file_name : string) (response : ndarray3 float)
    : FileTab * option exception :=
  analyze_file (new_tab file_name) response.

(** Lines 212-215: the text of the mode label. *)
Definition mode_text (selected : list nat) : string :=
  match selected with
  | [] => "Показаны все моды"
  | _ :: _ =>
      ("Показаны моды: "
       ++ String.concat ", " (map (λ m, decimal (Z.of_nat (m + 1))) selected))%string
  end.

(** Lines 206-215: the tab afterwards, and the exception that left the
    method, if any. *)
Definition set_modes (tab : FileTab) (selected : list nat)
    : FileTab * option exception :=
  match result_cache tab with
  | None =>
      ({| file_name := file_name tab; modes := selected;
          result_cache := None; canvas := canvas tab;
          results_label := results_label tab;
          mode_label := mode_label tab |}, None)
  | Some (velocities, frequencies, dampings, roots) =>
      match plot_vg velocities frequencies dampings selected (file_name tab) with
      | (fig, Some e) =>
          ({| file_name := file_name tab; modes := selected;
              result_cache := result_cache tab; canvas := fig;
              results_label := results_label tab;
              mode_label := mode_label tab |}, Some e)
      | (fig, None) =>
          ({| file_name := file_name tab; modes := selected;
              result_cache := result_cache tab; canvas := fig;
              results_label := results_label tab;
              mode_label := mode_text selected |}, None)
      end
  end.

(** ** The mode menu ([flutter_app.py] lines 388-403) *)

(** The check marks of the ten menu entries and the tab in front. *)
Record FlutterAnalyzer := {
  checked_modes : list bool;
  current_tab : option FileTab;
}.

(** Lines 399-403. *)
Definition set_modes_for_current_tab (self : FlutterAnalyzer) (selected : list nat)
    : FlutterAnalyzer * option exception :=
  match current_tab self with
  | None => (self, None)
  | Some tab =>
      let '(tab', e) := set_modes tab selected in
      ({| checked_modes := checked_modes self; current_tab := Some tab' |}, e)
  end.

(** Lines 392-395: the indices of the check marks that are set. *)
Definition curr_modes_of (checked_modes : list bool) : result (list nat) :=
  for_range 10 (λ i curr_modes,
    c ← getitem checked_modes i;
    Ok (if c : bool then curr_modes ++ [i] else curr_modes)) [].

(** Lines 390-396. *)
Definition set_all_modes (self : FlutterAnalyzer) (mode : nat) (checked : bool)
    : FlutterAnalyzer * option exception :=
  match setitem (checked_modes self) mode checked with
  | Raise e => (self, Some (Builtin e))
  | Ok checked_modes' =>
      let self' := {| checked_modes := checked_modes';
                      current_tab := current_tab self |} in
      match curr_modes_of checked_modes' with
      | Raise e => (self', Some (Builtin e))
      | Ok curr_modes => set_modes_for_current_tab self' curr_modes
      end
  end.

(** ** The files that are analysed

    [f.lower().endswith('.f06')], in the loop of [flutter_analyzer.py] lines
    130-131 and in [flutter_app.py] lines 435, 461 and 506.  A name is a string of
    bytes; a byte outside ASCII is left as it is, as no letter outside ASCII
    becomes one of the four characters of the suffix in lower case. *)

Definition ascii_lower (c : ascii) : ascii :=
  let n := nat_of_ascii c in
  if (65 <=? n) && (n <=? 90) then ascii_of_nat (n + 32) else c.

Fixpoint lower (s : string) : string :=
  match s with
  | EmptyString => EmptyString
  | String c s' => String (ascii_lower c) (lower s')
  end.

Definition endswith (s suffix : string) : bool :=
  bool_decide (list_ascii_of_string suffix `suffix_of` list_ascii_of_string s).

Definition is_f06 (f : string) : bool := endswith (lower f) ".f06".

(** * The vocabulary of the properties *)

(** ** Tensors *)

(** The data has the shape it declares (an array is never jagged). *)
Definition regular {num : Type} (t : ndarray3 num) : Prop :=
  length (results t) = num_modes t ∧
  Forall (λ mode, length mode = num_steps t ∧
                   Forall (λ row, length row = num_columns t) mode) (results t).

(** A well-formed tensor is regular and has the columns that are read
    (velocity in column 2, damping in column 3, frequency in column 4). *)
Definition well_formed {num : Type} (t : ndarray3 num) : Prop :=
  regular t ∧ 4 < num_columns t.

#[export] Instance regular_dec {num : Type} (t : ndarray3 num) : Decision (regular t).
Proof. unfold regular. apply _. Defined.

#[export] Instance well_formed_dec {num : Type} (t : ndarray3 num) :
  Decision (well_formed t).
Proof. unfold well_formed. apply _. Defined.

(** ** Two-dimensional arrays *)

Section ArrayVocabulary.
Context {A : Type}.
Implicit Types (g : list (list A)).

(** Entry [i, j] of a two-dimensional array. *)
Definition lookup2 g (i j : nat) : option A := g !! i ≫= (.!! j).

(** The array has [n] rows of [m] entries each. *)
Definition shape2 (n m : nat) g : Prop :=
  length g = n ∧ Forall (λ row, length row = m) g.

End ArrayVocabulary.

(** ** The state of the reduction *)

Section ReduceVocabulary.
Context {num : Type} `{!Arith num}.
Variable t : ndarray3 num.

(** Entry [i, j, k] of the tensor, for indices within its shape. *)
Definition entry (i j k : nat) : num :=
  match getitem3 t i j k with Ok x => x | Raise _ => nzero end.

(** What the arrays hold when the loops stand before step [j] of mode [k]:
    [velocities] holds mode [k] below [j] and the previous mode from [j] on;
    a two-dimensional array holds column [c] of the tensor at the pairs
    already visited and the initial zero elsewhere. *)
Definition velocity_at (k j j' : nat) : num :=
  if decide (j' < j) then entry k j' 2
  else match k with 0 => nzero | S k' => entry k' j' 2 end.

Definition visited (k j m' j' : nat) : Prop := m' < k ∨ (m' = k ∧ j' < j).

Definition cell_at (c k j j' m' : nat) : num :=
  if decide (visited k j m' j') then entry m' j' c else nzero.

Definition holds1 (k j : nat) (v : list num) : Prop :=
  length v = num_steps t ∧
  ∀ j', j' < num_steps t → v !! j' = Some (velocity_at k j j').

Definition holds2 (c k j : nat) (g : list (list num)) : Prop :=
  shape2 (num_steps t) (num_modes t) g ∧
  ∀ j' m', j' < num_steps t → m' < num_modes t →
           lookup2 g j' m' = Some (cell_at c k j j' m').

Definition reduce_inv (k j : nat) (s : series) : Prop :=
  let '(v, f, d) := s in holds1 k j v ∧ holds2 4 k j f ∧ holds2 3 k j d.

End ReduceVocabulary.

(** ** The root finder *)

#[export] Instance num_inhabited {num : Type} `{!Arith num} : Inhabited num :=
  populate nzero.

Section RootVocabulary.
Context {num : Type} `{!Arith num}.
Implicit Types (v d : list num) (g : list (list num)).

(** The guard of source line 46 at the pair [(i, i+1)]. *)
Definition sign_change d (i : nat) : bool :=
  nltb (nmul (d !!! i) (d !!! (i + 1))) nzero.

(** The value computed on source line 49 at the pair [(i, i+1)]. *)
Definition root_at v d (i : nat) : num :=
  interpolate (d !!! i) (d !!! (i + 1)) (v !!! i) (v !!! (i + 1)).

(** [mode_roots] after the first [k] iterations of the loop over the steps. *)
Definition roots_after v d (k : nat) : result (list num) :=
  for_range k (root_step v d) [].

(** The steps at which the guard holds, in increasing order. *)
Definition crossing_steps d (n_steps : nat) : list nat :=
  filter (λ i, sign_change d i = true) (seq 0 (n_steps - 1)).

(** Column [m] of a two-dimensional array, as a list. *)
Definition column_of g (m : nat) : list num :=
  match column g m with Ok c => c | Raise _ => [] end.

Definition mode_roots_of (n_steps : nat) v g (m : nat) : list num :=
  map (root_at v (column_of g m)) (crossing_steps (column_of g m) n_steps).

(** [roots] when the loop over the modes stands before mode [k]. *)
Definition roots_upto (n_steps : nat) v g (k : nat)
    (roots : gmap nat (list num)) : Prop :=
  ∀ m, roots !! m =
       if decide (m < k) then Some (mode_roots_of n_steps v g m) else None.

End RootVocabulary.

(** ** What [get_flutter] returns *)

Section WholeVocabulary.
Context {num : Type} `{!Arith num}.
Variable t : ndarray3 num.

(** The damping values of mode [m] along the flow steps. *)
Definition mode_damping (m : nat) : list num :=
  map (λ j, entry t m j 3) (seq 0 (num_steps t)).

(** The velocities the loops leave behind: every mode overwrites the whole
    array, so the last mode's column stays. *)
Definition sweep : list num :=
  match num_modes t with
  | 0 => zeros (num_steps t)
  | S k => map (λ j, entry t k j 2) (seq 0 (num_steps t))
  end.

(** The roots [get_flutter] stores for mode [m]. *)
Definition mode_roots (m : nat) : list num :=
  map (root_at sweep (mode_damping m)) (crossing_steps (mode_damping m) (num_steps t)).

(** The reference extraction, in the words of the specification: the velocity
    of each flow step is read from mode 0, and frequency and damping are read
    for every pair, step first and mode second. *)
Definition reference_extraction : series :=
  (map (λ step, entry t 0 step 2) (seq 0 (num_steps t)),
   map (λ step, map (λ mode, entry t mode step 4) (seq 0 (num_modes t)))
       (seq 0 (num_steps t)),
   map (λ step, map (λ mode, entry t mode step 3) (seq 0 (num_modes t)))
       (seq 0 (num_steps t))).

(** All modes carry the same velocity sweep. *)
Definition common_sweep : Prop :=
  ∀ mode step, mode < num_modes t → step < num_steps t →
               entry t mode step 2 = entry t 0 step 2.

End WholeVocabulary.

(** ** The report *)

(** The line of the report for a mode and its roots. *)
Definition report_line (i_mode : nat) (values : list float) : string :=
  (("Mode " ++ format_2d (i_mode + 1) ++ ": ")
   ++ String.concat ", " (map format_3f values))%string.

(** The line a mode contributes to the report, if any. *)
Definition mode_line (roots : gmap nat (list float)) (i_mode : nat) : option string :=
  match roots !! i_mode with
  | Some (x :: values) => Some (report_line i_mode (x :: values))
  | _ => None
  end.

(** The report: one line per mode with at least one root, by increasing
    mode. *)
Definition report (roots : gmap nat (list float)) : list string :=
  omap (mode_line roots) (seq 0 (size roots)).

Definition newline : string := String (ascii_of_nat 10) "".

(** The text of a file holding the given lines. *)
Definition unlines (lines : list string) : string :=
  String.concat "" (map (λ line, line ++ newline)%string lines).

(** ** Runs *)

(** The runs of [for i in range(n): body] from iteration [i] on, the body
    given by its own runs. *)
Inductive runs_range {St : Type} (body : nat → St → result St → Prop) (n : nat)
    : nat → St → result St → Prop :=
  | runs_range_end i s :
      n ≤ i → runs_range body n i s (Ok s)
  | runs_range_iter i s s' r :
      i < n → body i s (Ok s') → runs_range body n (S i) s' r →
      runs_range body n i s r
  | runs_range_raise i s e :
      i < n → body i s (Raise e) → runs_range body n i s (Raise e).

Section Runs.
Context {num : Type} `{!Arith num}.

(** Source lines 32-36. *)
Definition runs_reduce (response : ndarray3 num) (s : series) (r : result series)
    : Prop :=
  runs_range (λ i_mode,
    runs_range (λ i_step s r, r = reduce_step response i_mode i_step s)
               (num_steps response) 0)
    (num_modes response) 0 s r.

(** Source lines 41-51: one iteration of the loop over the modes. *)
Definition runs_mode (n_steps : nat) (velocities : list num)
    (dampings : list (list num)) (i_mode : nat) (roots : gmap nat (list num))
    (r : result (gmap nat (list num))) : Prop :=
  match column dampings i_mode with
  | Raise e => r = Raise e
  | Ok mode_damping =>
      ∃ r', runs_range (λ i_step mode_roots r,
                          r = root_step velocities mode_damping i_step mode_roots)
                       (n_steps - 1) 0 [] r' ∧
            r = (mode_roots ← r'; Ok (<[i_mode := mode_roots]> roots))
  end.

(** The runs of [get_flutter] on a tensor and what they end with. *)
Inductive runs_get_flutter (response : ndarray3 num)
    : result (list num * list (list num) * list (list num) * gmap nat (list num))
      → Prop :=
  | runs_reduce_raises e :
      runs_reduce response
        (zeros (num_steps response),
         zeros2 (num_steps response) (num_modes response),
         zeros2 (num_steps response) (num_modes response)) (Raise e) →
      runs_get_flutter response (Raise e)
  | runs_roots velocities frequencies dampings r :
      runs_reduce response
        (zeros (num_steps response),
         zeros2 (num_steps response) (num_modes response),
         zeros2 (num_steps response) (num_modes response))
        (Ok (velocities, frequencies, dampings)) →
      runs_range (runs_mode (num_steps response) velocities dampings)
                 (num_modes response) 0 ∅ r →
      runs_get_flutter response
        (roots ← r; Ok (velocities, frequencies, dampings, roots)).
End Runs.

(** ** Binary64 *)

(** The least exponent of a binary64 number. *)
Definition emin64 : Z := SpecFloat.emin prec emax.

(** ** Sample tensors *)

Set Warnings "-inexact-float".

(** One row of solver output: two leading columns, then velocity, damping and
    frequency. *)
Definition row (v d f : float) : list float := [0; 0; v; d; f]%float.

(** One mode sampled at a single flow step. *)
Definition t_one_step : ndarray3 float :=
  {| num_modes := 1; num_steps := 1; num_columns := 5;
     results := [[row 10 0.5 3]]%float |}.

(** No mode at all, three flow steps. *)
Definition t_no_mode : ndarray3 float :=
  {| num_modes := 0; num_steps := 3; num_columns := 5; results := [] |}.

(** Two modes whose velocity columns differ. *)
Definition t_two_sweeps : ndarray3 float :=
  {| num_modes := 2; num_steps := 2; num_columns := 5;
     results := [[row 10 1 5; row 20 2 6]; [row 30 3 7; row 40 4 8]]%float |}.

(** One mode, five flow steps, the damping changing sign three times. *)
Definition t_three_crossings : ndarray3 float :=
  {| num_modes := 1; num_steps := 5; num_columns := 5;
     results := [[row 10 1 2; row 20 (-1) 2; row 30 1 2; row 40 (-1) 2;
                  row 50 (-2) 2]]%float |}.

(** One mode whose damping passes through an exact zero at the middle step. *)
Definition t_zero_sample : ndarray3 float :=
  {| num_modes := 1; num_steps := 3; num_columns := 5;
     results := [[row 10 1 2; row 20 0 2; row 30 (-1) 2]]%float |}.

(** ** Plots and tabs *)

(** The data of a two-dimensional array has the shape the array declares. *)
Definition regular2 {num : Type} (a : ndarray2 num) : Prop :=
  shape2 (n_rows a) (n_cols a) (cells a).

(** The frequency values of mode [m] along the flow steps. *)
Definition mode_frequency {num : Type} `{!Arith num} (t : ndarray3 num) (m : nat)
    : list num :=
  map (λ j, entry t m j 4) (seq 0 (num_steps t)).

(** The column [j] a plot reads, as a list. *)
Definition plotted {num : Type} (a : ndarray2 num) (j : nat) : list num :=
  match getcolumn a j with Ok y => y | Raise _ => [] end.

(** The curve of mode [j]: its values against the flow, labelled with the
    1-based number of the mode. *)
Definition curve_of {num : Type} (flow : list num) (values : nat → list num)
    (j : nat) : curve num :=
  {| xdata := flow; ydata := values j; label := decimal (Z.of_nat (j + 1)) |}.

(** The modes a plot shows: the selected ones, all of them when none is
    selected. *)
Definition shown_modes (n_modes : nat) (selected : list nat) : list nat :=
  match selected with [] => seq 0 n_modes | _ :: _ => selected end.

(** The modes of a tensor that have at least one sign change. *)
Definition modes_with_roots {num : Type} `{!Arith num} (t : ndarray3 num)
    : list nat :=
  filter (λ m, crossing_steps (mode_damping t m) (num_steps t) ≠ [])
         (seq 0 (num_modes t)).

(** A line for a mode and its roots, after the word that starts it. *)
Definition line_body (mode : nat) (values : list float) : string :=
  (decimal (Z.of_nat (mode + 1)) ++ ": "
   ++ String.concat ", " (map format_3f values))%string.

(** The line of the results label for a mode and its roots. *)
Definition gui_line (mode : nat) (values : list float) : string :=
  ("Mode " ++ line_body mode values)%string.

(** The items of a dictionary that have at least one root. *)
Definition items_with_roots (roots : pydict (list float)) : pydict (list float) :=
  filter (λ item, item.2 ≠ []) roots.

(** The check marks that are set. *)
Definition checked_indices (checked_modes : list bool) : list nat :=
  filter (λ i, checked_modes !! i = Some true) (seq 0 10).

(** The tab holds the results of [get_flutter] on the tensor. *)
Definition holds_results (tab : FileTab) (t : ndarray3 float) : Prop :=
  ∃ r, get_flutter_items t = Ok r ∧ result_cache tab = Some r.

(** The figure of the modes [drawn] of a tensor, complete. *)
Definition figure_of {num : Type} `{!Arith num} (t : ndarray3 num)
    (drawn : list nat) (name : string) : figure num :=
  {| damping_axes := map (curve_of (sweep t) (mode_damping t)) drawn;
     frequency_axes := map (curve_of (sweep t) (mode_frequency t)) drawn;
     title := Some name;
     legend := Some (map (λ j, decimal (Z.of_nat (j + 1))) drawn) |}.

(** The figure a plot leaves when it fails after the damping curves of the
    modes [drawn]. *)
Definition broken_figure_of {num : Type} `{!Arith num} (t : ndarray3 num)
    (drawn : list nat) : figure num :=
  {| damping_axes := map (curve_of (sweep t) (mode_damping t)) drawn;
     frequency_axes := [];
     title := None;
     legend := None |}.

(** The text of the results label for a tensor. *)
Definition results_of (t : ndarray3 float) : string :=
  ("Flutter Roots:" ++ newline
   ++ unlines (map (λ m, "Mode " ++ line_body m (mode_roots t m))
                   (modes_with_roots t)))%string.

(** What can happen to a tab of a file whose response is [t]: it is analysed
    again, or another selection of modes is set. *)
Inductive tab_step (t : ndarray3 float) : FileTab → FileTab → Prop :=
  | step_analyze_file tab : tab_step t tab (analyze_file tab t).1
  | step_set_modes tab selected : tab_step t tab (set_modes tab selected).1.

(** The tabs of a file, from the new tab on. *)
Inductive tab_of (t : ndarray3 float) (name : string) : FileTab → Prop :=
  | tab_new : tab_of t name (FileTab_init name t).1
  | tab_next tab tab' : tab_of t name tab → tab_step t tab tab' → tab_of t name tab'.

(** The canvas shows the modes of the tab: all curves of the selection, or
    the damping curves up to the first mode the file has not. *)
Definition canvas_of_modes (t : ndarray3 float) (tab : FileTab) : Prop :=
  (Forall (λ j, j < num_modes t) (modes tab) ∧
   canvas tab = figure_of t (shown_modes (num_modes t) (modes tab)) (file_name tab))
  ∨ (∃ l1 j l2, modes tab = l1 ++ j :: l2 ∧ Forall (λ j, j < num_modes t) l1 ∧
                num_modes t ≤ j ∧ canvas tab = broken_figure_of t l1).

(** The window before any entry of the mode menu is used. *)
Definition new_window (tab : option FileTab) : FlutterAnalyzer :=
  {| checked_modes := replicate 10 false; current_tab := tab |}.

(** The invariant of the tabs of a file. *)
Definition tab_inv (t : ndarray3 float) (name : string) (tab : FileTab) : Prop :=
  file_name tab = name ∧ holds_results tab t ∧ results_label tab = results_of t ∧
  canvas_of_modes t tab ∧
  (Forall (λ j, j < num_modes t) (modes tab) → mode_label tab = mode_text (modes tab)).

(** ** More samples *)

(** A tensor of one mode, one step and three columns only. *)
Definition t_three_columns : ndarray3 float :=
  {| num_modes := 1; num_steps := 1; num_columns := 3;
     results := [[[0; 0; 10]]]%float |}.

(** The tensor [t_three_crossings] with other frequencies and other leading
    columns. *)
Definition t_three_crossings_retuned : ndarray3 float :=
  {| num_modes := 1; num_steps := 5; num_columns := 5;
     results := [[[1; 7; 10; 1; 3]; [1; 7; 20; -1; 4]; [1; 7; 30; 1; 5];
                  [1; 7; 40; -1; 6]; [1; 7; 50; -2; 7]]]%float |}.

(** Two steps of two modes, as an array. *)
Definition a_two_by_two : ndarray2 float :=
  {| n_rows := 2; n_cols := 2; cells := [[1; 3]; [2; 4]]%float |}.

(** Two modes at three flow steps: the first stays damped, the second loses
    its damping between the first two steps. *)
Definition t_second_mode_flutters : ndarray3 float :=
  {| num_modes := 2; num_steps := 3; num_columns := 5;
     results := [[row 10 (-1) 2; row 20 (-2) 2; row 30 (-3) 2];
                 [row 10 (-1) 4; row 20 1 4; row 30 2 4]]%float |}.

(** The tab of a file with this response, as it is opened. *)
Definition tab_wing : FileTab := (FileTab_init "wing.f06" t_second_mode_flutters).1.

(** The sample [t_three_crossings] in exact arithmetic. *)
Definition t_three_crossings_exact : ndarray3 Q :=
  {| num_modes := 1; num_steps := 5; num_columns := 5;
     results := [[[0; 0; 10; 1; 2]; [0; 0; 20; -1; 2]; [0; 0; 30; 1; 2];
                  [0; 0; 40; -1; 2]; [0; 0; 50; -2; 2]]]%Q |}.

(** * Lemmas *)

(** ** Loops *)

Section Loops.
Context {St : Type}.
Implicit Types (body : nat → St → result St) (s : St).

Lemma for_each_app body l1 l2 s :
  for_each body (l1 ++ l2) s = for_each body l1 s ≫= for_each body l2.
Proof.
  revert s. induction l1 as [|i l1 IH]; intros s; simpl; [done|].
  destruct (body i s) as [s'|e]; simpl; [apply IH | done].
Qed.

Lemma for_range_0 body s : for_range 0 body s = Ok s.
Proof. done. Qed.

Lemma for_range_S body n s :
  for_range (S n) body s = for_range n body s ≫= body n.
Proof.
  unfold for_range. rewrite seq_S, for_each_app. simpl.
  destruct (for_each body (seq 0 n) s) as [s'|e]; simpl; [|done].
  by destruct (body n s').
Qed.

(** The loop rule: an invariant that every iteration re-establishes holds
    when the loop ends, and the loop does end without an exception. *)
Lemma for_range_inv (P : nat → St → Prop) body n s :
  P 0 s →
  (∀ i s, i < n → P i s → ∃ s', body i s = Ok s' ∧ P (S i) s') →
  ∃ s', for_range n body s = Ok s' ∧ P n s'.
Proof.
  intros H0 Hstep. induction n as [|n IH].
  - exists s. by rewrite for_range_0.
  - destruct IH as (s1 & E1 & P1); [intros; apply Hstep; [lia|done]|].
    destruct (Hstep n s1) as (s2 & E2 & P2); [lia|done|].
    exists s2. by rewrite for_range_S, E1.
Qed.
End Loops.

(** ** Arrays *)

Lemma getitem_Ok {A} (x : list A) i v : x !! i = Some v → getitem x i = Ok v.
Proof. unfold getitem. by intros ->. Qed.

Lemma setitem_Ok {A} (x : list A) i v :
  i < length x → setitem x i v = Ok (<[i:=v]> x).
Proof. intros. unfold setitem. by rewrite decide_True. Qed.

Section Arrays.
Context {A : Type}.
Implicit Types (g : list (list A)).

Lemma shape2_lookup n m g i j :
  shape2 n m g → i < n → j < m → is_Some (lookup2 g i j).
Proof.
  intros [Hn Hm] Hi Hj. unfold lookup2.
  destruct (lookup_lt_is_Some_2 g i) as [row Hrow]; [lia|].
  rewrite Hrow. simpl. apply lookup_lt_is_Some_2.
  by rewrite (Forall_lookup_1 _ _ _ _ Hm Hrow).
Qed.

Lemma setitem2_Ok n m g i j v :
  shape2 n m g → i < n → j < m →
  ∃ g', setitem2 g i j v = Ok g' ∧ shape2 n m g' ∧
        ∀ i' j', lookup2 g' i' j' =
                 if decide (i' = i ∧ j' = j) then Some v else lookup2 g i' j'.
Proof.
  intros [Hn Hm] Hi Hj.
  destruct (lookup_lt_is_Some_2 g i) as [row Hrow]; [lia|].
  assert (length row = m) as Hlen.
  { apply (Forall_lookup_1 _ _ _ _ Hm Hrow). }
  exists (<[i:=<[j:=v]> row]> g). split; [|split; [split|]].
  - unfold setitem2. rewrite (getitem_Ok _ _ _ Hrow). simpl.
    rewrite setitem_Ok by lia. done.
  - by rewrite length_insert.
  - apply Forall_insert; [done|]. by rewrite length_insert.
  - intros i' j'. unfold lookup2.
    destruct (decide (i' = i)) as [->|Hne].
    + rewrite list_lookup_insert_eq by lia. simpl. rewrite Hrow. simpl.
      destruct (decide (j' = j)) as [->|Hne'].
      * rewrite decide_True by done. apply list_lookup_insert_eq. lia.
      * rewrite decide_False by tauto. by apply list_lookup_insert_ne.
    + rewrite decide_False by tauto. by rewrite list_lookup_insert_ne.
Qed.

Lemma column_Ok n m g j :
  shape2 n m g → j < m →
  ∃ c, column g j = Ok c ∧ length c = n ∧ ∀ i, c !! i = lookup2 g i j.
Proof.
  intros [Hn Hm] Hj. revert n Hn.
  induction Hm as [|row g Hrow Hm IH]; intros n Hn; simpl in *.
  - exists []. by subst n.
  - destruct n as [|n]; [done|]. destruct (IH n) as (c & Ec & Lc & Hc); [lia|].
    destruct (lookup_lt_is_Some_2 row j) as [v Hv]; [lia|].
    exists (v :: c). rewrite (getitem_Ok _ _ _ Hv), Ec. simpl.
    split; [done|]. split; [lia|]. intros [|i]; simpl; [|apply Hc].
    unfold lookup2. simpl. done.
Qed.
End Arrays.

(** ** The reduction (source lines 27-36) *)

Section Reduce.
Context {num : Type} `{!Arith num}.
Variable t : ndarray3 num.

Lemma getitem3_Ok i j k :
  regular t → i < num_modes t → j < num_steps t → k < num_columns t →
  getitem3 t i j k = Ok (entry t i j k).
Proof.
  intros [Hn Hm] Hi Hj Hk. unfold entry, getitem3.
  destruct (lookup_lt_is_Some_2 (results t) i) as [mode Hmode]; [lia|].
  destruct (Forall_lookup_1 _ _ _ _ Hm Hmode) as [Hs Hc].
  destruct (lookup_lt_is_Some_2 mode j) as [row Hrow]; [lia|].
  pose proof (Forall_lookup_1 _ _ _ _ Hc Hrow) as Hlen. simpl in Hlen.
  destruct (lookup_lt_is_Some_2 row k) as [x Hx]; [lia|].
  rewrite (getitem_Ok _ _ _ Hmode). simpl.
  rewrite (getitem_Ok _ _ _ Hrow). simpl.
  by rewrite (getitem_Ok _ _ _ Hx).
Qed.

Lemma holds1_init : holds1 t 0 0 (zeros (num_steps t)).
Proof.
  split; [apply length_replicate|]. intros j' Hj'.
  unfold zeros. rewrite lookup_replicate_2 by done.
  unfold velocity_at. by rewrite decide_False by lia.
Qed.

Lemma holds2_init c : holds2 t c 0 0 (zeros2 (num_steps t) (num_modes t)).
Proof.
  split; [split; [apply length_replicate|]|].
  - apply Forall_replicate, length_replicate.
  - intros j' m' Hj' Hm'. unfold lookup2, zeros2, zeros.
    rewrite lookup_replicate_2 by done. simpl.
    rewrite lookup_replicate_2 by done.
    unfold cell_at, visited. by rewrite decide_False by lia.
Qed.

Lemma holds1_step k j v :
  holds1 t k j v → j < num_steps t →
  ∃ v', setitem v j (entry t k j 2) = Ok v' ∧ holds1 t k (S j) v'.
Proof.
  intros [Hlen Hv] Hj. exists (<[j:=entry t k j 2]> v).
  split; [apply setitem_Ok; lia|]. split; [by rewrite length_insert|].
  intros j' Hj'. destruct (decide (j' = j)) as [->|Hne].
  - rewrite list_lookup_insert_eq by lia.
    unfold velocity_at. by rewrite decide_True by lia.
  - rewrite list_lookup_insert_ne by done. rewrite Hv by done.
    unfold velocity_at. destruct (decide (j' < j)).
    + by rewrite decide_True by lia.
    + by rewrite decide_False by lia.
Qed.

Lemma holds2_step c k j g :
  holds2 t c k j g → k < num_modes t → j < num_steps t →
  ∃ g', setitem2 g j k (entry t k j c) = Ok g' ∧ holds2 t c k (S j) g'.
Proof.
  intros [Hshape Hg] Hk Hj.
  destruct (setitem2_Ok _ _ g j k (entry t k j c) Hshape Hj Hk)
    as (g' & E & Hshape' & Hg').
  exists g'. split; [done|]. split; [done|].
  intros j' m' Hj' Hm'. rewrite Hg'. unfold cell_at, visited.
  destruct (decide (j' = j ∧ m' = k)) as [[-> ->]|Hne].
  - by rewrite decide_True by lia.
  - rewrite Hg by done. unfold cell_at, visited.
    destruct (decide (m' < k ∨ m' = k ∧ j' < j)).
    + by rewrite decide_True by lia.
    + by rewrite decide_False by lia.
Qed.

Lemma holds1_next k v : holds1 t k (num_steps t) v → holds1 t (S k) 0 v.
Proof.
  intros [Hlen Hv]. split; [done|]. intros j' Hj'. rewrite Hv by done.
  unfold velocity_at. rewrite decide_True by done. by rewrite decide_False by lia.
Qed.

Lemma holds2_next c k g : holds2 t c k (num_steps t) g → holds2 t c (S k) 0 g.
Proof.
  intros [Hshape Hg]. split; [done|]. intros j' m' Hj' Hm'.
  rewrite Hg by done. unfold cell_at, visited.
  destruct (decide (m' < k ∨ m' = k ∧ j' < num_steps t)).
  - by rewrite decide_True by lia.
  - by rewrite decide_False by lia.
Qed.

Hypothesis Hwf : well_formed t.

Lemma reduce_step_inv k j s :
  k < num_modes t → j < num_steps t → reduce_inv t k j s →
  ∃ s', reduce_step t k j s = Ok s' ∧ reduce_inv t k (S j) s'.
Proof.
  destruct Hwf as [Hreg Hcol].
  intros Hk Hj. destruct s as [[v f] d]. intros (Hv & Hf & Hd).
  destruct (holds1_step _ _ _ Hv Hj) as (v' & Ev & Hv').
  destruct (holds2_step _ _ _ _ Hf Hk Hj) as (f' & Ef & Hf').
  destruct (holds2_step _ _ _ _ Hd Hk Hj) as (d' & Ed & Hd').
  exists (v', f', d'). split; [|done]. unfold reduce_step.
  rewrite !getitem3_Ok by (done || lia). simpl.
  rewrite Ev. simpl. rewrite Ef. simpl. rewrite Ed. done.
Qed.

Lemma reduce_results_inv :
  ∃ s, reduce_results t = Ok s ∧ reduce_inv t (num_modes t) 0 s.
Proof.
  unfold reduce_results.
  apply (for_range_inv (λ k s, reduce_inv t k 0 s)).
  - split; [apply holds1_init|]. split; apply holds2_init.
  - intros k s Hk Hs.
    destruct (for_range_inv (λ j s, reduce_inv t k j s)
                (λ i_step, reduce_step t k i_step) (num_steps t) s Hs)
      as (s' & E & Hs').
    { intros j s1 Hj Hs1. by apply reduce_step_inv. }
    exists s'. split; [done|]. destruct s' as [[v f] d].
    destruct Hs' as (Hv & Hf & Hd).
    split; [by apply holds1_next|]. split; by apply holds2_next.
Qed.
End Reduce.

(** ** The root finder (source lines 39-51) *)

Section Roots.
Context {num : Type} `{!Arith num}.
Implicit Types (v d : list num) (g : list (list num)).

Lemma root_step_Ok v d i mode_roots :
  i + 1 < length d → i + 1 < length v →
  root_step v d i mode_roots =
    Ok (if sign_change d i then mode_roots ++ [root_at v d i] else mode_roots).
Proof.
  intros Hd Hv. unfold root_step, sign_change, root_at.
  rewrite (getitem_Ok d i (d !!! i)) by (apply list_lookup_lookup_total_lt; lia).
  rewrite (getitem_Ok d (i + 1) (d !!! (i + 1)))
    by (apply list_lookup_lookup_total_lt; lia).
  simpl. destruct (nltb _ _); [|done].
  rewrite (getitem_Ok v i (v !!! i)) by (apply list_lookup_lookup_total_lt; lia).
  rewrite (getitem_Ok v (i + 1) (v !!! (i + 1)))
    by (apply list_lookup_lookup_total_lt; lia).
  done.
Qed.

Lemma roots_after_S v d i :
  roots_after v d (S i) = roots_after v d i ≫= root_step v d i.
Proof. apply for_range_S. Qed.

Lemma roots_after_Ok v d k :
  k < length d → k < length v →
  roots_after v d k =
    Ok (map (root_at v d) (filter (λ i, sign_change d i = true) (seq 0 k))).
Proof.
  intros Hd Hv. induction k as [|k IH]; [done|].
  rewrite roots_after_S, IH by lia.
  rewrite seq_S, filter_app, map_app, filter_cons, filter_nil.
  change (0 + k) with k. unfold mbind, result_bind.
  rewrite root_step_Ok by lia.
  destruct (sign_change d k) eqn:E.
  - by rewrite decide_True by done.
  - rewrite decide_False by done. simpl. by rewrite app_nil_r.
Qed.

Lemma roots_after_step v d i :
  i + 1 < length d → i + 1 < length v →
  ∃ before,
    roots_after v d i = Ok before ∧
    roots_after v d (i + 1)
      = Ok (if sign_change d i then before ++ [root_at v d i] else before).
Proof.
  intros Hd Hv. eexists. split; [apply roots_after_Ok; lia|].
  rewrite Nat.add_1_r, roots_after_S, roots_after_Ok by lia.
  unfold mbind, result_bind. apply root_step_Ok; lia.
Qed.

Lemma find_mode_roots_Ok n v d :
  length v = n → length d = n →
  find_mode_roots n v d = Ok (map (root_at v d) (crossing_steps d n)).
Proof.
  intros Hv Hd. unfold find_mode_roots, crossing_steps.
  destruct n as [|n]; [done|].
  apply (roots_after_Ok v d (S n - 1)); lia.
Qed.

Lemma find_roots_Ok n_modes n_steps v g :
  length v = n_steps → shape2 n_steps n_modes g →
  ∃ roots, find_roots n_modes n_steps v g = Ok roots ∧
           roots_upto n_steps v g n_modes roots.
Proof.
  intros Hv Hg. unfold find_roots.
  apply (for_range_inv (roots_upto n_steps v g)).
  - intros m. rewrite lookup_empty. by rewrite decide_False by lia.
  - intros i roots Hi Hroots. unfold roots_upto in *.
    destruct (column_Ok _ _ g i Hg) as (c & Ec & Lc & _); [lia|].
    exists (<[i := mode_roots_of n_steps v g i]> roots). split.
    + unfold mode_roots_of, column_of. rewrite Ec. simpl.
      by rewrite (find_mode_roots_Ok n_steps v c).
    + intros m. destruct (decide (m = i)) as [->|Hne].
      * rewrite lookup_insert_eq. by rewrite decide_True by lia.
      * rewrite lookup_insert_ne by done. rewrite Hroots.
        destruct (decide (m < i)).
        -- by rewrite decide_True by lia.
        -- by rewrite decide_False by lia.
Qed.
End Roots.

(** ** [get_flutter] as a whole *)

Section Whole.
Context {num : Type} `{!Arith num}.
Variable t : ndarray3 num.

Lemma lookup_map_seq {A} (f : nat → A) n i :
  map f (seq 0 n) !! i = if decide (i < n) then Some (f i) else None.
Proof.
  rewrite list_lookup_fmap. destruct (decide (i < n)).
  - by rewrite lookup_seq_lt.
  - by rewrite lookup_seq_ge by lia.
Qed.

Lemma holds1_sweep v : holds1 t (num_modes t) 0 v → v = sweep t.
Proof.
  intros [Hlen Hv]. apply list_eq. intros j.
  destruct (decide (j < num_steps t)) as [Hj|Hj].
  - rewrite Hv by done. unfold velocity_at, sweep.
    rewrite decide_False by lia. destruct (num_modes t).
    + unfold zeros. by rewrite lookup_replicate_2.
    + rewrite lookup_map_seq. by rewrite decide_True.
  - rewrite lookup_ge_None_2 by lia. symmetry. apply lookup_ge_None_2.
    unfold sweep, zeros. destruct (num_modes t).
    + rewrite length_replicate. lia.
    + rewrite length_map, length_seq. lia.
Qed.

Lemma holds2_final c g j m :
  holds2 t c (num_modes t) 0 g → j < num_steps t → m < num_modes t →
  lookup2 g j m = Some (entry t m j c).
Proof.
  intros [_ Hg] Hj Hm. rewrite Hg by done. unfold cell_at, visited.
  by rewrite decide_True by lia.
Qed.

Lemma holds2_column g m :
  holds2 t 3 (num_modes t) 0 g → m < num_modes t →
  column_of g m = mode_damping t m.
Proof.
  intros Hg Hm. destruct (column_Ok _ _ g m (proj1 Hg) Hm) as (c & Ec & Lc & Hc).
  unfold column_of. rewrite Ec. apply list_eq. intros j.
  unfold mode_damping. rewrite lookup_map_seq, Hc.
  destruct (decide (j < num_steps t)) as [Hj|Hj].
  - by apply holds2_final.
  - rewrite <- Hc. apply lookup_ge_None_2. lia.
Qed.

Lemma shape2_table (f : nat → nat → num) n m :
  shape2 n m (map (λ i, map (f i) (seq 0 m)) (seq 0 n)) ∧
  ∀ i j, i < n → j < m →
         lookup2 (map (λ i, map (f i) (seq 0 m)) (seq 0 n)) i j = Some (f i j).
Proof.
  split; [split|].
  - by rewrite length_map, length_seq.
  - apply Forall_forall. intros r Hr. apply list_elem_of_fmap in Hr as (i & -> & _).
    by rewrite length_map, length_seq.
  - intros i j Hi Hj. unfold lookup2. rewrite lookup_map_seq.
    rewrite decide_True by done. simpl. rewrite lookup_map_seq.
    by rewrite decide_True.
Qed.

Lemma shape2_ext n m (g g' : list (list num)) :
  shape2 n m g → shape2 n m g' →
  (∀ i j, i < n → j < m → lookup2 g i j = lookup2 g' i j) → g = g'.
Proof.
  intros [Hn Hm] [Hn' Hm'] Heq. apply list_eq. intros i.
  destruct (decide (i < n)) as [Hi|Hi].
  - destruct (lookup_lt_is_Some_2 g i) as [r Hr]; [lia|].
    destruct (lookup_lt_is_Some_2 g' i) as [r' Hr']; [lia|].
    rewrite Hr, Hr'. f_equal.
    pose proof (Forall_lookup_1 _ _ _ _ Hm Hr) as Lr.
    pose proof (Forall_lookup_1 _ _ _ _ Hm' Hr') as Lr'. simpl in Lr, Lr'.
    apply list_eq. intros j. destruct (decide (j < m)) as [Hj|Hj].
    + specialize (Heq i j Hi Hj). unfold lookup2 in Heq.
      by rewrite Hr, Hr' in Heq.
    + by rewrite !lookup_ge_None_2 by lia.
  - by rewrite !lookup_ge_None_2 by lia.
Qed.

(** On a well-formed tensor the reduction returns, and this is what it
    returns. *)
Lemma reduce_results_Ok :
  well_formed t →
  ∃ f d,
    reduce_results t = Ok (sweep t, f, d) ∧
    shape2 (num_steps t) (num_modes t) f ∧
    shape2 (num_steps t) (num_modes t) d ∧
    (∀ j m, j < num_steps t → m < num_modes t →
            lookup2 f j m = Some (entry t m j 4) ∧
            lookup2 d j m = Some (entry t m j 3)) ∧
    (∀ m, m < num_modes t → column_of d m = mode_damping t m).
Proof.
  intros Hwf. destruct (reduce_results_inv t Hwf) as ([[v f] d] & E & Hv & Hf & Hd).
  apply holds1_sweep in Hv as ->. exists f, d.
  split; [done|]. split; [apply Hf|]. split; [apply Hd|]. split.
  - intros j m Hj Hm. split; by apply holds2_final.
  - intros m Hm. by apply holds2_column.
Qed.

Lemma length_sweep : length (sweep t) = num_steps t.
Proof.
  unfold sweep, zeros. destruct (num_modes t).
  - apply length_replicate.
  - by rewrite length_map, length_seq.
Qed.

(** So does [get_flutter]. *)
Lemma get_flutter_Ok :
  well_formed t →
  ∃ f d roots,
    get_flutter t = Ok (sweep t, f, d, roots) ∧
    reduce_results t = Ok (sweep t, f, d) ∧
    (∀ m, roots !! m = if decide (m < num_modes t) then Some (mode_roots t m) else None).
Proof.
  intros Hwf.
  destruct (reduce_results_Ok Hwf) as (f & d & E & Hf & Hd & _ & Hcol).
  destruct (find_roots_Ok (num_modes t) (num_steps t) (sweep t) d length_sweep Hd)
    as (roots & Er & Hr).
  exists f, d, roots. unfold get_flutter. rewrite E. simpl. rewrite Er. simpl.
  split; [done|]. split; [done|].
  intros m. rewrite (Hr m). destruct (decide (m < num_modes t)); [|done].
  unfold mode_roots_of, mode_roots. by rewrite Hcol.
Qed.
(** The sequence stored for a mode is what the loop over the steps has built
    when it ends. *)
Lemma get_flutter_mode_loop m :
  well_formed t → m < num_modes t →
  ∃ f d roots,
    get_flutter t = Ok (sweep t, f, d, roots) ∧
    roots !! m = Some (mode_roots t m) ∧
    roots_after (sweep t) (mode_damping t m) (num_steps t - 1) = Ok (mode_roots t m).
Proof.
  intros Hwf Hm. destruct (get_flutter_Ok Hwf) as (f & d & roots & E & _ & Hr).
  exists f, d, roots. split; [done|]. split; [by rewrite Hr, decide_True|].
  unfold mode_roots, crossing_steps.
  destruct (num_steps t) as [|n] eqn:En; [done|].
  apply roots_after_Ok.
  - unfold mode_damping. rewrite length_map, length_seq. lia.
  - rewrite length_sweep. lia.
Qed.
End Whole.

(** ** Filtering an increasing list *)

Lemma filter_none {A} (P : A → Prop) `{!∀ x, Decision (P x)} (l : list A) :
  (∀ x, x ∈ l → ¬ P x) → filter P l = [].
Proof.
  induction l as [|x l IH]; intros Hl; [done|].
  rewrite filter_cons_False by (apply Hl; left).
  apply IH. intros y Hy. apply Hl. by right.
Qed.

Lemma StronglySorted_filter {A} (R : relation A) (P : A → Prop)
    `{!∀ x, Decision (P x)} (l : list A) :
  StronglySorted R l → StronglySorted R (filter P l).
Proof.
  induction 1 as [|x l Hsorted IH Hall]; [constructor|].
  rewrite filter_cons. destruct (decide (P x)); [|done].
  constructor; [done|]. rewrite Forall_forall in Hall |- *.
  intros y Hy. apply Hall. by apply list_elem_of_filter in Hy as [_ ?].
Qed.

Lemma StronglySorted_seq start len : StronglySorted lt (seq start len).
Proof.
  revert start. induction len as [|len IH]; intros start; simpl; constructor.
  - apply IH.
  - apply Forall_seq. intros j Hj. lia.
Qed.

(** ** The report *)

Lemma string_app_assoc (s1 s2 s3 : string) :
  (s1 ++ (s2 ++ s3) = (s1 ++ s2) ++ s3)%string.
Proof.
  induction s1 as [|c s1 IH]; [done|].
  change (String c (s1 ++ (s2 ++ s3)) = String c ((s1 ++ s2) ++ s3))%string.
  by f_equal.
Qed.

Lemma string_app_nil_r (s : string) : (s ++ "")%string = s.
Proof.
  induction s as [|c s IH]; [done|].
  change (String c (s ++ "") = String c s)%string. by f_equal.
Qed.

Lemma unlines_cons (line : string) (lines : list string) :
  unlines (line :: lines) = ((line ++ newline) ++ unlines lines)%string.
Proof.
  unfold unlines. simpl. destruct (map _ lines) as [|l ls] eqn:E; simpl.
  - by rewrite string_app_nil_r.
  - done.
Qed.

Lemma write_modes_report (roots : gmap nat (list float)) (modes : list nat)
    (out : output) :
  (∀ i, i ∈ modes → is_Some (roots !! i)) →
  write_modes roots modes out
    = ({| printed := printed out ++ omap (mode_line roots) modes;
          file := (file out ++ unlines (omap (mode_line roots) modes))%string |},
       None).
Proof.
  revert out. induction modes as [|i modes IH]; intros out Hkeys; simpl.
  - rewrite app_nil_r. unfold unlines. simpl. rewrite string_app_nil_r.
    by destruct out.
  - destruct (Hkeys i) as [values Hvalues]; [left|].
    rewrite Hvalues. rewrite IH by (intros j Hj; apply Hkeys; by right).
    assert (mode_line roots i = match values with
                                | [] => None
                                | _ :: _ => Some (report_line i values)
                                end) as Hline.
    { unfold mode_line. rewrite Hvalues. by destruct values. }
    change (omap (mode_line roots) (i :: modes))
      with (match mode_line roots i with
            | Some y => y :: omap (mode_line roots) modes
            | None => omap (mode_line roots) modes
            end).
    rewrite Hline. destruct values as [|x values]; [done|].
    change (0 <? length (x :: values)) with true. cbv iota.
    unfold write_line. cbn [printed file].
    fold (report_line i (x :: values)). fold newline.
    rewrite unlines_cons, <- app_assoc, !string_app_assoc. done.
Qed.

(** ** Runs of a loop *)

Section RunsRange.
Context {St : Type}.
Implicit Types (body : nat → St → result St → Prop).

(** A loop whose body has at most one outcome has at most one outcome. *)
Lemma runs_range_deterministic body n i s r1 r2 :
  (∀ i s r1 r2, body i s r1 → body i s r2 → r1 = r2) →
  runs_range body n i s r1 → runs_range body n i s r2 → r1 = r2.
Proof.
  intros Hbody H1. revert r2.
  induction H1 as [i s Hi|i s s' r Hi Hb _ IH|i s e Hi Hb]; intros r2 H2.
  - inversion H2; subst; [done|lia|lia].
  - inversion H2 as [| ? ? s2 ? ? Hb2 Hrest | ? ? e2 ? Hb2]; subst; [lia| |].
    + pose proof (Hbody _ _ _ _ Hb Hb2) as [= ->]. by apply IH.
    + by pose proof (Hbody _ _ _ _ Hb Hb2).
  - inversion H2 as [| ? ? s2 ? ? Hb2 Hrest | ? ? e2 ? Hb2]; subst; [lia| |].
    + by pose proof (Hbody _ _ _ _ Hb Hb2).
    + by pose proof (Hbody _ _ _ _ Hb Hb2) as [= ->].
Qed.

(** A loop whose body always has a run has a run itself: the one the
    function [for_each] computes. *)
Lemma runs_range_for_each body (f : nat → St → result St) n k i s :
  (∀ i s, body i s (f i s)) → i + k = n →
  runs_range body n i s (for_each f (seq i k) s).
Proof.
  intros Hbody. revert i s. induction k as [|k IH]; intros i s Hn; simpl.
  - apply runs_range_end. lia.
  - pose proof (Hbody i s) as Hb. destruct (f i s) as [s'|e]; simpl.
    + eapply runs_range_iter; [lia|done|]. apply IH. lia.
    + apply runs_range_raise; [lia|done].
Qed.

Lemma runs_range_for_range body (f : nat → St → result St) n s :
  (∀ i s, body i s (f i s)) → runs_range body n 0 s (for_range n f s).
Proof. intros Hbody. by apply runs_range_for_each. Qed.
End RunsRange.

(** ** The interpolation in binary64 and in exact arithmetic *)

(** Addition of binary64 numbers is commutative. *)
Lemma float_add_comm (x y : float) : (x + y = y + x)%float.
Proof.
  apply Prim2SF_inj. rewrite !add_spec. unfold SF64add.
  destruct (Prim2SF x) as [sx|sx| |sx mx ex], (Prim2SF y) as [sy|sy| |sy my ey];
    simpl; try reflexivity.
  - by destruct sx, sy.
  - by destruct sx, sy.
  - by rewrite Z.min_comm, Z.add_comm.
Qed.

(** *** Exact arithmetic: the weight and the bracket *)

Lemma Qltb_lt (x y : Q) : Qltb x y = true ↔ (x < y)%Q.
Proof.
  unfold Qltb. rewrite negb_true_iff. split.
  - intros H. apply Qnot_le_lt. intros Hle. apply Qle_bool_iff in Hle. congruence.
  - intros H. destruct (Qle_bool y x) eqn:E; [|done].
    apply Qle_bool_iff in E. by apply Qlt_not_le in H.
Qed.

Lemma exact_weight (fa fb : Q) :
  (fa * fb < 0 → ¬ fa - fb == 0 ∧ 0 < fa / (fa - fb) ∧ fa / (fa - fb) < 1)%Q.
Proof.
  intros Hguard.
  assert (¬ fa - fb == 0)%Q as Hden by (intros E; nra).
  split; [done|].
  pose proof (Qmult_div_r fa _ Hden) as Hw.
  set (w := (fa / (fa - fb))%Q) in *.
  split; nra.
Qed.

Lemma exact_root (fa fb a b : Q) :
  (fa * fb < 0)%Q →
  ((a < b → a < interpolate fa fb a b ∧ interpolate fa fb a b < b) ∧
   (b < a → b < interpolate fa fb a b ∧ interpolate fa fb a b < a) ∧
   (a == b → interpolate fa fb a b == a))%Q.
Proof.
  intros Hguard. destruct (exact_weight fa fb Hguard) as (_ & H0 & H1).
  unfold interpolate. simpl. set (w := (fa / (fa - fb))%Q) in *. clearbody w.
  split; [|split]; intros Hab; try split; nra.
Qed.

(** *** Binary64: the denominator

    The operations of binary64 are specified on [spec_float] by rounding an
    integer mantissa to 53 bits.  Rounding a nonzero mantissa whose exponent
    is at least the least exponent never gives a zero: shifting a number of
    [d > 53] bits right by [d - 53] leaves 53 bits. *)

Section Binary64.
Local Open Scope Z_scope.

(** One shift to the right removes one bit. *)
Lemma shr_1_digits (mrs : shr_record) :
  0 ≤ shr_m mrs →
  0 ≤ shr_m (shr_1 mrs) ∧
  Zdigits2 (shr_m (shr_1 mrs)) = Z.max 0 (Zdigits2 (shr_m mrs) - 1).
Proof.
  destruct mrs as [m r s]. simpl. intros Hm.
  destruct m as [|[p|p|]|p]; simpl; try lia.
Qed.

Lemma iter_shr_1_digits (n : positive) (mrs : shr_record) :
  0 ≤ shr_m mrs →
  0 ≤ shr_m (SpecFloat.iter_pos shr_1 n mrs) ∧
  Zdigits2 (shr_m (SpecFloat.iter_pos shr_1 n mrs)) = Z.max 0 (Zdigits2 (shr_m mrs) - Z.pos n).
Proof.
  revert mrs. induction n as [n IH|n IH|]; intros mrs Hm; simpl.
  - destruct (shr_1_digits mrs Hm) as [H1 D1].
    destruct (IH _ H1) as [H2 D2]. destruct (IH _ H2) as [H3 D3].
    split; [done|]. rewrite D3, D2, D1. lia.
  - destruct (IH _ Hm) as [H2 D2]. destruct (IH _ H2) as [H3 D3].
    split; [done|]. rewrite D3, D2. lia.
  - apply shr_1_digits, Hm.
Qed.

(** Truncating a positive mantissa to the format leaves it positive. *)
Lemma shr_fexp_positive (m : positive) (e : Z) (l : location) :
  emin64 ≤ e →
  ∃ m' r s e',
    shr_fexp prec emax (Z.pos m) e l = ({| shr_m := Z.pos m'; shr_r := r; shr_s := s |}, e') ∧
    emin64 ≤ e'.
Proof.
  intros He. unfold shr_fexp, shr.
  assert (∃ r s, shr_record_of_loc (Z.pos m) l = {| shr_m := Z.pos m; shr_r := r; shr_s := s |})
    as (r & s & ->) by (destruct l as [|[]]; simpl; eauto).
  destruct (fexp prec emax (Zdigits2 (Z.pos m) + e) - e) as [|n|n] eqn:En;
    [by exists m, r, s, e | | by exists m, r, s, e].
  destruct (iter_shr_1_digits n {| shr_m := Z.pos m; shr_r := r; shr_s := s |})
    as [Hpos Hdig]; [simpl; lia|].
  destruct (SpecFloat.iter_pos shr_1 n _) as [m' r' s']. simpl in Hpos, Hdig.
  unfold fexp in En. unfold emin64 in He.
  assert (Zdigits2 m' = prec) as Hm'.
  { rewrite Hdig. unfold prec in *. simpl Zdigits2 in *. lia. }
  destruct m' as [|m'|m']; [done| |lia].
  exists m', r', s', (e + Z.pos n). split; [done|]. unfold emin64. lia.
Qed.

(** Rounding a positive mantissa gives a nonzero number of the same sign, or
    overflows to the infinity of that sign. *)
Lemma binary_round_aux_nonzero (sx : bool) (m : positive) (e : Z) (l : location) :
  emin64 ≤ e →
  (∃ m' e', binary_round_aux prec emax sx (Z.pos m) e l = S754_finite sx m' e') ∨
  binary_round_aux prec emax sx (Z.pos m) e l = S754_infinity sx.
Proof.
  intros He. unfold binary_round_aux.
  destruct (shr_fexp_positive m e l He) as (m1 & r1 & s1 & e1 & -> & He1).
  assert (∃ m2, round_nearest_even (shr_m {| shr_m := Z.pos m1; shr_r := r1; shr_s := s1 |})
                  (loc_of_shr_record {| shr_m := Z.pos m1; shr_r := r1; shr_s := s1 |})
                = Z.pos m2) as (m2 & ->).
  { simpl. destruct r1, s1; simpl; eauto; destruct m1; simpl; eauto. }
  destruct (shr_fexp_positive m2 e1 loc_Exact He1) as (m3 & r3 & s3 & e3 & -> & He3).
  simpl. destruct (e3 <=? emax - prec); eauto.
Qed.

(** Rounding keeps the sign it is given. *)
Lemma binary_round_aux_sign (sx : bool) (m e : Z) (l : location) :
  match binary_round_aux prec emax sx m e l with
  | S754_zero s | S754_infinity s | S754_finite s _ _ => s = sx
  | S754_nan => True
  end.
Proof.
  unfold binary_round_aux. destruct (shr_fexp _ _ _ _ _) as [mrs' e'].
  destruct (shr_fexp _ _ _ _ _) as [mrs'' e'']. destruct (shr_m mrs''); [done| |done].
  by destruct (_ <=? _).
Qed.

Lemma binary_round_nonzero (sx : bool) (m : positive) (e : Z) :
  emin64 ≤ e →
  (∃ m' e', binary_round prec emax sx m e = S754_finite sx m' e') ∨
  binary_round prec emax sx m e = S754_infinity sx.
Proof.
  intros He. unfold binary_round, shl_align.
  destruct (fexp prec emax (Z.pos (digits2_pos m) + e) - e) eqn:E;
    try (by apply binary_round_aux_nonzero).
  apply binary_round_aux_nonzero. unfold fexp, emin64 in *. lia.
Qed.

(** The exponent of a binary64 number is at least the least exponent. *)
Lemma valid_exponent (s : bool) (m : positive) (e : Z) :
  valid_binary (S754_finite s m e) = true → emin64 ≤ e.
Proof.
  unfold valid_binary. simpl. unfold bounded, canonical_mantissa. intros H.
  apply andb_prop in H as [H _]. apply Z.eqb_eq in H.
  unfold fexp, emin64 in *. lia.
Qed.

(** Only a negative nonzero number or the negative infinity is below zero. *)
Lemma SFltb_zero (x : spec_float) :
  SFltb x (S754_zero false) = true →
  x = S754_infinity true ∨ ∃ m e, x = S754_finite true m e.
Proof.
  destruct x as [s|[]| |[] m e]; unfold SFltb; simpl; try done; eauto.
Qed.

(** A product is below zero only if both factors are nonzero (finite or
    infinite) and of opposite signs. *)
Lemma SFmul_negative (x y : spec_float) :
  SFltb (SFmul prec emax x y) (S754_zero false) = true →
  ∃ s,
    ((∃ m e, x = S754_finite s m e) ∨ x = S754_infinity s) ∧
    ((∃ m e, y = S754_finite (negb s) m e) ∨ y = S754_infinity (negb s)).
Proof.
  intros H. apply SFltb_zero in H.
  assert (∀ sa sb : bool, xorb sa sb = true → sb = negb sa) as Hxor
    by (by intros [] []).
  destruct x as [sa|sa| |sa ma ea], y as [sb|sb| |sb mb eb]; simpl in H;
    try (destruct H as [H|(? & ? & H)]; discriminate H).
  - exists sa. rewrite <- (Hxor sa sb); [eauto|].
    destruct H as [H|(? & ? & H)]; congruence.
  - exists sa. rewrite <- (Hxor sa sb); [eauto 10|].
    destruct H as [H|(? & ? & H)]; congruence.
  - exists sa. rewrite <- (Hxor sa sb); [eauto 10|].
    destruct H as [H|(? & ? & H)]; congruence.
  - exists sa. rewrite <- (Hxor sa sb); [eauto 10|].
    pose proof (binary_round_aux_sign (xorb sa sb) (Z.pos (ma * mb)) (ea + eb) loc_Exact)
      as Hs.
    destruct H as [H|(? & ? & H)]; rewrite H in Hs; done.
Qed.

Lemma float_guard_signs (fa fb : float) :
  (fa * fb <? 0)%float = true →
  ∃ s,
    ((∃ m e, Prim2SF fa = S754_finite s m e) ∨ Prim2SF fa = S754_infinity s) ∧
    ((∃ m e, Prim2SF fb = S754_finite (negb s) m e) ∨ Prim2SF fb = S754_infinity (negb s)).
Proof.
  rewrite FloatAxioms.ltb_spec, FloatAxioms.mul_spec.
  change (Prim2SF 0) with (S754_zero false).
  apply SFmul_negative.
Qed.

(** The guard of source line 46 makes the denominator of source line 49 a
    nonzero number or an infinity: never a zero, never a NaN. *)
Lemma float_denominator_nonzero (fa fb : float) :
  (fa * fb <? 0)%float = true →
  (fa - fb =? 0)%float = false ∧ (fa - fb =? fa - fb)%float = true.
Proof.
  intros Hguard. destruct (float_guard_signs fa fb Hguard) as (s & Ha & Hb).
  pose proof (Prim2SF_valid fa) as Va. pose proof (Prim2SF_valid fb) as Vb.
  rewrite !FloatAxioms.eqb_spec, FloatAxioms.sub_spec.
  change (Prim2SF 0) with (S754_zero false).
  unfold SF64sub.
  assert ((∃ m e, SFsub prec emax (Prim2SF fa) (Prim2SF fb) = S754_finite s m e) ∨
          SFsub prec emax (Prim2SF fa) (Prim2SF fb) = S754_infinity s) as Hsub.
  { destruct Ha as [(ma & ea & Ea)| Ea], Hb as [(mb & eb & Eb)| Eb];
      rewrite Ea, Eb in *; simpl.
    - apply valid_exponent in Va, Vb.
      destruct s; simpl; apply binary_round_nonzero; lia.
    - destruct s; simpl; eauto.
    - destruct s; simpl; eauto.
    - destruct s; simpl; eauto. }
  destruct Hsub as [(m & e & ->)| ->]; unfold SFeqb; simpl.
  - destruct s; simpl; rewrite ?Z.compare_refl, ?Pos.compare_cont_refl; done.
  - by destruct s.
Qed.
End Binary64.

(** The guard is the binary64 one: a product of two tiny numbers of opposite
    signs underflows to [-0.0], which is not below zero, and gives no root. *)
Lemma underflow_gives_no_root (a b : float) :
  find_mode_roots 2 [a; b] [1e-200; -1e-200]%float = Ok [].
Proof. done. Qed.

(** ** Further lemmas on loops, root sets and reports *)

(** A loop whose first iteration raises raises. *)
Lemma for_range_first_raises {St} (body : nat → St → result St) n s e :
  0 < n → body 0 s = Raise e → for_range n body s = Raise e.
Proof.
  destruct n as [|n]; [lia|]. intros _ Hbody.
  unfold for_range. simpl. by rewrite Hbody.
Qed.

(** A root set described mode by mode has as many keys as modes. *)
Lemma roots_described_size {V} (roots : gmap nat V) (n : nat) (g : nat → V) :
  (∀ m, roots !! m = if decide (m < n) then Some (g m) else None) →
  size roots = n.
Proof.
  intros Hr. rewrite <- (size_dom (D:=gset nat)).
  replace (dom roots) with (set_seq (C:=gset nat) 0 n); [apply size_set_seq|].
  apply set_eq. intros k. rewrite elem_of_dom, elem_of_set_seq, Hr.
  destruct (decide (k < n)).
  - split; [by eexists|lia].
  - split; [lia|by intros [? ?]].
Qed.

(** [write_modes] over two stretches of modes. *)
Lemma write_modes_app (roots : gmap nat (list float)) (l1 l2 : list nat)
    (out : output) :
  write_modes roots (l1 ++ l2) out =
    match write_modes roots l1 out with
    | (out', None) => write_modes roots l2 out'
    | (out', Some e) => (out', Some e)
    end.
Proof.
  revert out. induction l1 as [|i l1 IH]; intros out; simpl; [done|].
  destruct (roots !! i); [apply IH|done].
Qed.

(** [write_modes] ends without exception only if it found every key. *)
Lemma write_modes_None (roots : gmap nat (list float)) (modes : list nat)
    (out out' : output) :
  write_modes roots modes out = (out', None) →
  ∀ i, i ∈ modes → is_Some (roots !! i).
Proof.
  revert out. induction modes as [|k modes IH]; intros out Hrun i Hi.
  - by apply elem_of_nil in Hi.
  - simpl in Hrun. destruct (roots !! k) as [values|] eqn:Ek; [|done].
    apply elem_of_cons in Hi as [->|Hi]; [by rewrite Ek|].
    by eapply IH.
Qed.

(** Selecting with an optional function is filtering and mapping. *)
Lemma omap_filter_map {A B} (f : A → option B) (P : A → Prop)
    `{!∀ x, Decision (P x)} (g : A → B) (l : list A) :
  (∀ x, x ∈ l → f x = if decide (P x) then Some (g x) else None) →
  omap f l = map g (filter P l).
Proof.
  induction l as [|x l IH]; intros Hf; [done|].
  change (omap f (x :: l)) with (match f x with
                                 | Some y => y :: omap f l
                                 | None => omap f l
                                 end).
  rewrite filter_cons, (Hf x) by left.
  rewrite IH by (intros y Hy; apply Hf; by right).
  by destruct (decide (P x)).
Qed.

(** ** Plots *)

Section Plots.
Context {num : Type}.
Implicit Types (a : ndarray2 num) (flow : list num).

Lemma getcolumn_Ok a j :
  regular2 a → j < n_cols a →
  ∃ y, getcolumn a j = Ok y ∧ length y = n_rows a ∧
       ∀ i, y !! i = lookup2 (cells a) i j.
Proof.
  intros Ha Hj. unfold getcolumn. rewrite decide_True by done.
  by apply column_Ok with (m := n_cols a).
Qed.

Lemma getcolumn_out_of_range a j :
  n_cols a ≤ j → getcolumn a j = Raise IndexError.
Proof. intros Hj. unfold getcolumn. by rewrite decide_False by lia. Qed.

Lemma plot_modes_in_range flow a (l : list nat) (drawn : list (curve num)) :
  regular2 a → length flow = n_rows a → Forall (λ j, j < n_cols a) l →
  plot_modes flow a l drawn = (drawn ++ map (curve_of flow (plotted a)) l, None).
Proof.
  intros Ha Hflow Hl. revert drawn.
  induction Hl as [|j l Hj Hl IH]; intros drawn; simpl.
  - by rewrite app_nil_r.
  - destruct (getcolumn_Ok a j Ha Hj) as (y & Ey & Ly & _).
    rewrite Ey, decide_True, IH, <- app_assoc by lia. simpl.
    unfold curve_of, plotted. by rewrite Ey.
Qed.

Lemma plot_modes_out_of_range flow a (l1 l2 : list nat) (j : nat)
    (drawn : list (curve num)) :
  regular2 a → length flow = n_rows a → Forall (λ j, j < n_cols a) l1 →
  n_cols a ≤ j →
  plot_modes flow a (l1 ++ j :: l2) drawn
    = (drawn ++ map (curve_of flow (plotted a)) l1, Some (Builtin IndexError)).
Proof.
  intros Ha Hflow Hl Hj. revert drawn.
  induction Hl as [|k l1 Hk Hl IH]; intros drawn; simpl.
  - rewrite app_nil_r. by rewrite getcolumn_out_of_range.
  - destruct (getcolumn_Ok a k Ha Hk) as (y & Ey & Ly & _).
    rewrite Ey, decide_True, IH, <- app_assoc by lia. simpl.
    unfold curve_of, plotted. by rewrite Ey.
Qed.

Lemma map_label_curve_of flow (values : nat → list num) (l : list nat) :
  map label (map (curve_of flow values) l)
    = map (λ j, decimal (Z.of_nat (j + 1))) l.
Proof. rewrite map_map. done. Qed.

(** [plot_vg] on arrays of one shape, every selected mode being a column. *)
Lemma plot_vg_in_range flow (freqs deltas : ndarray2 num) (selected : list nat)
    (name : string) :
  regular2 freqs → regular2 deltas →
  n_cols deltas = n_cols freqs →
  length flow = n_rows freqs → length flow = n_rows deltas →
  Forall (λ j, j < n_cols freqs) selected →
  plot_vg flow freqs deltas selected name
    = ({| damping_axes :=
            map (curve_of flow (plotted deltas)) (shown_modes (n_cols freqs) selected);
          frequency_axes :=
            map (curve_of flow (plotted freqs)) (shown_modes (n_cols freqs) selected);
          title := Some name;
          legend := Some (map (λ j, decimal (Z.of_nat (j + 1)))
                              (shown_modes (n_cols freqs) selected)) |}, None).
Proof.
  intros Hf Hd Hcols Hlf Hld Hsel. unfold plot_vg.
  assert (Forall (λ j, j < n_cols freqs) (shown_modes (n_cols freqs) selected))
    as Hshown.
  { destruct selected; [|done]. simpl. apply Forall_seq. lia. }
  change (match selected with [] => seq 0 (n_cols freqs) | _ :: _ => selected end)
    with (shown_modes (n_cols freqs) selected).
  rewrite (plot_modes_in_range flow deltas) by (done || by rewrite Hcols).
  rewrite (plot_modes_in_range flow freqs) by done.
  simpl. by rewrite map_label_curve_of.
Qed.

(** [plot_vg] when a selected mode is not a column. *)
Lemma plot_vg_out_of_range flow (freqs deltas : ndarray2 num) (l1 l2 : list nat)
    (j : nat) (name : string) :
  regular2 deltas → length flow = n_rows deltas →
  Forall (λ j, j < n_cols deltas) l1 → n_cols deltas ≤ j →
  plot_vg flow freqs deltas (l1 ++ j :: l2) name
    = ({| damping_axes := map (curve_of flow (plotted deltas)) l1;
          frequency_axes := [];
          title := None;
          legend := None |}, Some (Builtin IndexError)).
Proof.
  intros Hd Hld Hl Hj. unfold plot_vg.
  assert (match l1 ++ j :: l2 with
          | [] => seq 0 (n_cols freqs)
          | _ :: _ => l1 ++ j :: l2
          end = l1 ++ j :: l2) as -> by (by destruct l1).
  by rewrite (plot_modes_out_of_range flow deltas).
Qed.
End Plots.

(** ** The root dictionary with its order *)

(** Setting a key that is not there appends it. *)
Lemma pydict_set_fresh {V} (d : pydict V) (k : nat) (v : V) :
  (∀ item, item ∈ d → item.1 ≠ k) → pydict_set d k v = d ++ [(k, v)].
Proof.
  induction d as [|[k' v'] d IH]; intros Hfresh; simpl; [done|].
  rewrite decide_False by (apply (Hfresh (k', v')); left).
  rewrite IH; [done|]. intros item Hitem. apply Hfresh. by right.
Qed.

Section Items.
Context {num : Type} `{!Arith num}.

Lemma find_roots_items_Ok n_modes n_steps (v : list num) (g : list (list num)) :
  length v = n_steps → shape2 n_steps n_modes g →
  find_roots_items n_modes n_steps v g
    = Ok (map (λ m, (m, mode_roots_of n_steps v g m)) (seq 0 n_modes)).
Proof.
  intros Hv Hg. unfold find_roots_items.
  destruct (for_range_inv
              (λ k (items : pydict (list num)),
                 items = map (λ m, (m, mode_roots_of n_steps v g m)) (seq 0 k))
              (λ i_mode roots,
                 mode_damping ← column g i_mode;
                 mode_roots ← find_mode_roots n_steps v mode_damping;
                 Ok (pydict_set roots i_mode mode_roots)) n_modes [])
    as (items & E & ->); [done| |done].
  intros i items Hi ->.
  destruct (column_Ok _ _ g i Hg) as (c & Ec & Lc & _); [lia|].
  eexists. split.
  - rewrite Ec. simpl. rewrite (find_mode_roots_Ok n_steps v c) by done. simpl.
    reflexivity.
  - rewrite pydict_set_fresh.
    + rewrite seq_S, map_app. simpl. unfold mode_roots_of, column_of.
      by rewrite Ec.
    + intros item Hitem. apply list_elem_of_fmap in Hitem as (m & -> & Hm).
      apply list_elem_of_In, in_seq in Hm. simpl. lia.
Qed.

(** A column of an array whose entries are known. *)
Lemma column_of_table n m (g : list (list num)) (h : nat → nat → num) (j : nat) :
  shape2 n m g → j < m →
  (∀ i, i < n → lookup2 g i j = Some (h i j)) →
  column_of g j = map (λ i, h i j) (seq 0 n).
Proof.
  intros Hg Hj Hh. destruct (column_Ok _ _ g j Hg Hj) as (c & Ec & Lc & Hc).
  unfold column_of. rewrite Ec. apply list_eq. intros i.
  rewrite lookup_map_seq, Hc. destruct (decide (i < n)) as [Hi|Hi].
  - by apply Hh.
  - rewrite <- Hc. apply lookup_ge_None_2. lia.
Qed.

Variable t : ndarray3 num.

(** What [get_flutter] returns with shapes and order, on a well-formed
    tensor. *)
Lemma get_flutter_items_Ok :
  well_formed t →
  ∃ f d roots,
    get_flutter t = Ok (sweep t, f, d, roots) ∧
    get_flutter_items t
      = Ok (sweep t,
            {| n_rows := num_steps t; n_cols := num_modes t; cells := f |},
            {| n_rows := num_steps t; n_cols := num_modes t; cells := d |},
            map (λ m, (m, mode_roots t m)) (seq 0 (num_modes t))) ∧
    shape2 (num_steps t) (num_modes t) f ∧
    shape2 (num_steps t) (num_modes t) d ∧
    (∀ m, m < num_modes t →
          column_of f m = mode_frequency t m ∧ column_of d m = mode_damping t m) ∧
    (∀ m, roots !! m = if decide (m < num_modes t) then Some (mode_roots t m) else None).
Proof.
  intros Hwf. destruct (get_flutter_Ok t Hwf) as (f & d & roots & E & Ered & Hr).
  destruct (reduce_results_Ok t Hwf) as (f0 & d0 & E0 & Hf & Hd & Hfd & Hcol).
  rewrite Ered in E0. injection E0 as <- <-.
  exists f, d, roots. split; [done|]. split; [|split; [done|split; [done|split; [|done]]]].
  - unfold get_flutter_items. rewrite Ered. simpl.
    rewrite (find_roots_items_Ok _ _ _ _ (length_sweep t) Hd). simpl.
    do 2 f_equal. apply map_ext_in. intros m Hm. apply in_seq in Hm.
    unfold mode_roots_of, mode_roots. rewrite Hcol by lia. done.
  - intros m Hm. split; [|by apply Hcol].
    unfold mode_frequency.
    apply (column_of_table _ _ f (λ i j, entry t j i 4) m Hf Hm).
    intros i Hi. by apply Hfd.
Qed.

(** The columns a plot reads from the arrays of [get_flutter]. *)
Lemma plotted_column (g : list (list num)) (m : nat) :
  shape2 (num_steps t) (num_modes t) g → m < num_modes t →
  plotted {| n_rows := num_steps t; n_cols := num_modes t; cells := g |} m
    = column_of g m.
Proof.
  intros Hg Hm. unfold plotted, getcolumn, column_of. simpl.
  by rewrite decide_True.
Qed.
(** The plot of the arrays of [get_flutter], every selected mode being a mode
    of the tensor. *)
Lemma plot_vg_results (f d : list (list num)) (selected : list nat) (name : string) :
  shape2 (num_steps t) (num_modes t) f → shape2 (num_steps t) (num_modes t) d →
  (∀ m, m < num_modes t →
        column_of f m = mode_frequency t m ∧ column_of d m = mode_damping t m) →
  Forall (λ j, j < num_modes t) selected →
  plot_vg (sweep t)
      {| n_rows := num_steps t; n_cols := num_modes t; cells := f |}
      {| n_rows := num_steps t; n_cols := num_modes t; cells := d |}
      selected name
    = (figure_of t (shown_modes (num_modes t) selected) name, None).
Proof.
  intros Hf Hd Hcol Hsel.
  assert (Forall (λ j, j < num_modes t) (shown_modes (num_modes t) selected))
    as Hshown.
  { destruct selected; [|done]. simpl. apply Forall_seq. lia. }
  rewrite plot_vg_in_range by (done || apply length_sweep).
  unfold figure_of. simpl. f_equal. f_equal.
  - apply map_ext_in. intros j Hj.
    rewrite Forall_forall in Hshown. apply list_elem_of_In, Hshown in Hj.
    unfold curve_of. f_equal. rewrite plotted_column by done. by apply Hcol.
  - apply map_ext_in. intros j Hj.
    rewrite Forall_forall in Hshown. apply list_elem_of_In, Hshown in Hj.
    unfold curve_of. f_equal. rewrite plotted_column by done. by apply Hcol.
Qed.

(** The plot of the arrays of [get_flutter] with a mode the tensor has not. *)
Lemma plot_vg_results_unknown (f d : list (list num)) (l1 l2 : list nat) (j : nat)
    (name : string) :
  shape2 (num_steps t) (num_modes t) d →
  (∀ m, m < num_modes t → column_of d m = mode_damping t m) →
  Forall (λ j, j < num_modes t) l1 → num_modes t ≤ j →
  plot_vg (sweep t)
      {| n_rows := num_steps t; n_cols := num_modes t; cells := f |}
      {| n_rows := num_steps t; n_cols := num_modes t; cells := d |}
      (l1 ++ j :: l2) name
    = (broken_figure_of t l1, Some (Builtin IndexError)).
Proof.
  intros Hd Hcol Hl Hj.
  rewrite plot_vg_out_of_range by (done || apply length_sweep).
  unfold broken_figure_of. do 2 f_equal.
  apply map_ext_in. intros k Hk.
  rewrite Forall_forall in Hl. apply list_elem_of_In, Hl in Hk.
  unfold curve_of. f_equal. rewrite plotted_column by done. by apply Hcol.
Qed.

End Items.

(** ** The results label and the mode menu *)

Lemma results_text_from (items : pydict (list float)) (text : string) :
  fold_left (λ results_text '(mode, values),
    if 0 <? length values then
      let values_str := String.concat ", " (map format_3f values) in
      (results_text ++ "Mode " ++ decimal (Z.of_nat (mode + 1)) ++ ": "
       ++ values_str ++ String (ascii_of_nat 10) "")%string
    else results_text) items text
  = (text ++ unlines (map (λ item, gui_line item.1 item.2)
                          (items_with_roots items)))%string.
Proof.
  revert text. induction items as [|[mode values] items IH]; intros text.
  - simpl. unfold unlines. simpl. by rewrite string_app_nil_r.
  - cbn [fold_left]. rewrite IH. unfold items_with_roots.
    destruct values as [|x values].
    + by rewrite (filter_cons_False (λ item : nat * list float, item.2 ≠ []))
        by (simpl; auto).
    + rewrite (filter_cons_True (λ item : nat * list float, item.2 ≠ [])) by done.
      change (0 <? length (x :: values)) with true. cbv iota zeta.
      cbn [map]. rewrite unlines_cons. fold newline.
      unfold gui_line, line_body. cbn [fst snd].
      by rewrite !string_app_assoc.
Qed.

Lemma results_text_lines (items : pydict (list float)) :
  results_text items
  = ("Flutter Roots:" ++ newline
     ++ unlines (map (λ item, gui_line item.1 item.2) (items_with_roots items)))%string.
Proof.
  unfold results_text. rewrite results_text_from. fold newline.
  by rewrite string_app_assoc.
Qed.

(** The line of the report file is the line of the results label, with one
    more space before a mode number of one digit. *)
Lemma report_line_gui_line (mode : nat) (values : list float) :
  report_line mode values
  = ("Mode " ++ (if (mode <? 9)%nat then " " else "") ++ line_body mode values)%string.
Proof.
  unfold report_line, line_body, format_2d.
  replace (mode + 1 <? 10) with (mode <? 9).
  - by rewrite !string_app_assoc.
  - destruct (Nat.ltb_spec mode 9), (Nat.ltb_spec (mode + 1) 10); (done || lia).
Qed.

(** The items of [get_flutter] that have roots are the modes with a sign
    change. *)
Lemma items_with_roots_of_modes (t : ndarray3 float) :
  items_with_roots (map (λ m, (m, mode_roots t m)) (seq 0 (num_modes t)))
  = map (λ m, (m, mode_roots t m)) (modes_with_roots t).
Proof.
  unfold items_with_roots, modes_with_roots.
  induction (seq 0 (num_modes t)) as [|m l IH]; [done|].
  cbn [map].
  destruct (crossing_steps (mode_damping t m) (num_steps t)) as [|i steps] eqn:E.
  - rewrite (filter_cons_False (λ item : nat * list float, item.2 ≠ []))
      by (simpl; unfold mode_roots; rewrite E; simpl; auto).
    rewrite (filter_cons_False
               (λ m, crossing_steps (mode_damping t m) (num_steps t) ≠ []))
      by (rewrite E; auto).
    apply IH.
  - rewrite (filter_cons_True (λ item : nat * list float, item.2 ≠ []))
      by (simpl; unfold mode_roots; by rewrite E).
    rewrite (filter_cons_True
               (λ m, crossing_steps (mode_damping t m) (num_steps t) ≠ []))
      by (by rewrite E).
    cbn [map]. f_equal. apply IH.
Qed.

(** The check marks that are set, as the loop collects them. *)
Lemma curr_modes_of_Ok (checked_modes : list bool) :
  length checked_modes = 10 →
  curr_modes_of checked_modes = Ok (checked_indices checked_modes).
Proof.
  intros Hlen. unfold curr_modes_of, checked_indices.
  destruct (for_range_inv
              (λ k (curr : list nat),
                 curr = filter (λ i, checked_modes !! i = Some true) (seq 0 k))
              (λ i curr_modes,
                 c ← getitem checked_modes i;
                 Ok (if c : bool then curr_modes ++ [i] else curr_modes)) 10 [])
    as (curr & E & ->); [done| |done].
  intros i curr Hi ->.
  destruct (lookup_lt_is_Some_2 checked_modes i) as [c Hc]; [lia|].
  eexists. split.
  - rewrite (getitem_Ok _ _ _ Hc). simpl. reflexivity.
  - rewrite seq_S, filter_app, filter_cons, filter_nil. simpl. rewrite Hc.
    destruct c.
    + by rewrite decide_True.
    + rewrite decide_False by done. by rewrite app_nil_r.
Qed.

Lemma filter_all {A} (P : A → Prop) `{!∀ x, Decision (P x)} (l : list A) :
  (∀ x, x ∈ l → P x) → filter P l = l.
Proof.
  induction l as [|x l IH]; intros Hl; [done|].
  rewrite filter_cons_True by (apply Hl; left).
  f_equal. apply IH. intros y Hy. apply Hl. by right.
Qed.

Lemma checked_indices_split (checked_modes : list bool) (n : nat) :
  n ≤ 10 →
  checked_indices checked_modes
  = filter (λ i, checked_modes !! i = Some true) (seq 0 n)
    ++ filter (λ i, checked_modes !! i = Some true) (seq n (10 - n)).
Proof.
  intros Hn. unfold checked_indices.
  replace 10 with (n + (10 - n)) at 1 by lia.
  by rewrite seq_app, filter_app.
Qed.

Lemma elem_of_checked_indices (checked_modes : list bool) (i : nat) :
  length checked_modes = 10 →
  i ∈ checked_indices checked_modes ↔ checked_modes !! i = Some true.
Proof.
  intros Hlen. unfold checked_indices. rewrite list_elem_of_filter, elem_of_seq.
  split; [tauto|]. intros Hi. split; [done|].
  apply lookup_lt_Some in Hi. lia.
Qed.

Lemma checked_indices_sorted (checked_modes : list bool) :
  StronglySorted lt (checked_indices checked_modes).
Proof. apply StronglySorted_filter, StronglySorted_seq. Qed.

(** The selection of the menu splits at the number of modes of a file when a
    mark beyond it is set. *)
Lemma checked_indices_unknown (checked_modes : list bool) (n mode : nat) :
  length checked_modes = 10 → n ≤ mode →
  checked_modes !! mode = Some true →
  ∃ j l2,
    checked_indices checked_modes
    = filter (λ i, i < n) (checked_indices checked_modes) ++ j :: l2 ∧
    n ≤ j.
Proof.
  intros Hlen Hmode Hset.
  assert (mode < 10) as Hlt by (apply lookup_lt_Some in Hset; lia).
  rewrite (checked_indices_split checked_modes n) by lia.
  destruct (filter (λ i, checked_modes !! i = Some true) (seq n (10 - n)))
    as [|j l2] eqn:E.
  - exfalso. assert (mode ∈ @nil nat) as Hin; [|by apply elem_of_nil in Hin].
    rewrite <- E. apply list_elem_of_filter. split; [done|].
    apply elem_of_seq. lia.
  - assert (∀ k, k ∈ j :: l2 → n ≤ k) as Hge.
    { intros k Hk. rewrite <- E in Hk.
      apply list_elem_of_filter in Hk as [_ Hk]. apply elem_of_seq in Hk. lia. }
    exists j, l2. split; [|apply Hge; left].
    rewrite filter_app. rewrite (filter_none (λ i, i < n) (j :: l2)).
    + rewrite app_nil_r. rewrite (filter_all (λ i, i < n)); [done|].
      intros k Hk. apply list_elem_of_filter in Hk as [_ Hk].
      apply elem_of_seq in Hk. lia.
    + intros k Hk. apply Hge in Hk. lia.
Qed.

(** What a tab that holds the results of a well-formed tensor has in its
    cache. *)
Lemma holds_results_cache (tab : FileTab) (t : ndarray3 float) :
  well_formed t → holds_results tab t →
  ∃ f d,
    result_cache tab
      = Some (sweep t,
              {| n_rows := num_steps t; n_cols := num_modes t; cells := f |},
              {| n_rows := num_steps t; n_cols := num_modes t; cells := d |},
              map (λ m, (m, mode_roots t m)) (seq 0 (num_modes t))) ∧
    shape2 (num_steps t) (num_modes t) f ∧
    shape2 (num_steps t) (num_modes t) d ∧
    (∀ m, m < num_modes t →
          column_of f m = mode_frequency t m ∧ column_of d m = mode_damping t m).
Proof.
  intros Hwf (r & Er & Hr).
  destruct (get_flutter_items_Ok t Hwf) as (f & d & roots & _ & E & Hf & Hd & Hcol & _).
  rewrite E in Er. injection Er as <-. by exists f, d.
Qed.

(** The report of the root set of [get_flutter]. *)
Lemma report_of_roots (t : ndarray3 float) (roots : gmap nat (list float)) :
  (∀ m, roots !! m = if decide (m < num_modes t) then Some (mode_roots t m) else None) →
  write_roots roots
    = ({| printed := map (λ m, report_line m (mode_roots t m)) (modes_with_roots t);
          file := unlines (map (λ m, report_line m (mode_roots t m))
                               (modes_with_roots t)) |}, None).
Proof.
  intros Hr. pose proof (roots_described_size roots _ _ Hr) as Hsize.
  unfold write_roots. rewrite write_modes_report.
  - simpl. rewrite Hsize.
    rewrite (omap_filter_map (mode_line roots)
               (λ m, crossing_steps (mode_damping t m) (num_steps t) ≠ [])
               (λ m, report_line m (mode_roots t m))); [done|].
    intros m Hm. apply list_elem_of_In, in_seq in Hm.
    unfold mode_line. rewrite Hr, decide_True by lia. unfold mode_roots.
    destruct (crossing_steps (mode_damping t m) (num_steps t)) as [|i steps];
      by simpl.
  - intros i Hi. apply list_elem_of_In, in_seq in Hi.
    rewrite Hr, decide_True by lia. by eexists.
Qed.

(** A selection holds modes of the file only, or has a first mode the file
    has not. *)
Lemma selection_cases (n : nat) (l : list nat) :
  Forall (λ j, j < n) l
  ∨ ∃ l1 j l2, l = l1 ++ j :: l2 ∧ Forall (λ j, j < n) l1 ∧ n ≤ j.
Proof.
  induction l as [|k l IH]; [by left|].
  destruct (decide (k < n)) as [Hk|Hk].
  - destruct IH as [IH|(l1 & j & l2 & -> & Hl1 & Hj)].
    + left. by constructor.
    + right. exists (k :: l1), j, l2. split; [done|]. split; [by constructor|done].
  - right. exists [], k, l. split; [done|]. split; [constructor|lia].
Qed.

(** ** [FileTab] *)

Lemma set_modes_Ok (tab : FileTab) (t : ndarray3 float) (selected : list nat) :
  well_formed t → holds_results tab t →
  Forall (λ j, j < num_modes t) selected →
  set_modes tab selected
    = ({| file_name := file_name tab; modes := selected;
          result_cache := result_cache tab;
          canvas := figure_of t (shown_modes (num_modes t) selected) (file_name tab);
          results_label := results_label tab;
          mode_label := mode_text selected |}, None).
Proof.
  intros Hwf Hres Hsel.
  destruct (holds_results_cache tab t Hwf Hres) as (f & d & Hc & Hf & Hd & Hcol).
  unfold set_modes. rewrite Hc.
  by rewrite (plot_vg_results t f d selected (file_name tab) Hf Hd Hcol Hsel).
Qed.

Lemma set_modes_unknown (tab : FileTab) (t : ndarray3 float) (l1 l2 : list nat)
    (j : nat) :
  well_formed t → holds_results tab t →
  Forall (λ j, j < num_modes t) l1 → num_modes t ≤ j →
  set_modes tab (l1 ++ j :: l2)
    = ({| file_name := file_name tab; modes := l1 ++ j :: l2;
          result_cache := result_cache tab;
          canvas := broken_figure_of t l1;
          results_label := results_label tab;
          mode_label := mode_label tab |}, Some (Builtin IndexError)).
Proof.
  intros Hwf Hres Hl Hj.
  destruct (holds_results_cache tab t Hwf Hres) as (f & d & Hc & Hf & Hd & Hcol).
  unfold set_modes. rewrite Hc.
  rewrite (plot_vg_results_unknown t f d l1 l2 j (file_name tab) Hd); try done.
  intros m Hm. by apply Hcol.
Qed.

Lemma results_text_of_items (t : ndarray3 float) :
  results_text (map (λ m, (m, mode_roots t m)) (seq 0 (num_modes t)))
  = results_of t.
Proof.
  rewrite results_text_lines, items_with_roots_of_modes, map_map. done.
Qed.

Lemma analyze_file_Ok (tab : FileTab) (t : ndarray3 float) :
  well_formed t → Forall (λ j, j < num_modes t) (modes tab) →
  ∃ r, get_flutter_items t = Ok r ∧
    analyze_file tab t
    = ({| file_name := file_name tab; modes := modes tab;
          result_cache := Some r;
          canvas := figure_of t (shown_modes (num_modes t) (modes tab))
                              (file_name tab);
          results_label := results_of t;
          mode_label := mode_label tab |}, None).
Proof.
  intros Hwf Hsel.
  destruct (get_flutter_items_Ok t Hwf) as (f & d & roots & _ & E & Hf & Hd & Hcol & _).
  eexists. split; [exact E|].
  unfold analyze_file. rewrite E.
  rewrite (plot_vg_results t f d (modes tab) (file_name tab) Hf Hd Hcol Hsel).
  by rewrite results_text_of_items.
Qed.

Lemma analyze_file_unknown (tab : FileTab) (t : ndarray3 float) (l1 l2 : list nat)
    (j : nat) :
  well_formed t → modes tab = l1 ++ j :: l2 →
  Forall (λ j, j < num_modes t) l1 → num_modes t ≤ j →
  ∃ r, get_flutter_items t = Ok r ∧
    analyze_file tab t
    = ({| file_name := file_name tab; modes := modes tab;
          result_cache := Some r;
          canvas := broken_figure_of t l1;
          results_label := results_label tab;
          mode_label := mode_label tab |}, Some (Builtin IndexError)).
Proof.
  intros Hwf Hmodes Hl Hj.
  destruct (get_flutter_items_Ok t Hwf) as (f & d & roots & _ & E & Hf & Hd & Hcol & _).
  eexists. split; [exact E|].
  unfold analyze_file. rewrite E. rewrite Hmodes at 1.
  rewrite (plot_vg_results_unknown t f d l1 l2 j (file_name tab) Hd); try done.
  intros m Hm. by apply Hcol.
Qed.

Lemma not_all_known (n : nat) (l1 l2 : list nat) (j : nat) :
  n ≤ j → ¬ Forall (λ j, j < n) (l1 ++ j :: l2).
Proof.
  intros Hj Hall. apply Forall_app in Hall as [_ Hall].
  apply Forall_cons in Hall as [Hlt _]. lia.
Qed.

Lemma tab_inv_new (t : ndarray3 float) (name : string) :
  well_formed t → tab_inv t name (FileTab_init name t).1.
Proof.
  intros Hwf. unfold FileTab_init.
  destruct (analyze_file_Ok (new_tab name) t Hwf) as (r & Er & ->); [constructor|].
  simpl. split; [done|]. split; [by exists r|]. split; [done|]. split; [|done].
  left. by split.
Qed.

Lemma tab_inv_step (t : ndarray3 float) (name : string) (tab tab' : FileTab) :
  well_formed t → tab_inv t name tab → tab_step t tab tab' → tab_inv t name tab'.
Proof.
  intros Hwf (Hname & Hres & Hlabel & Hcanvas & Hmode) Hstep.
  destruct Hstep as [tab|tab selected].
  - destruct (selection_cases (num_modes t) (modes tab))
      as [Hall|(l1 & j & l2 & Hsplit & Hl1 & Hj)].
    + destruct (analyze_file_Ok tab t Hwf Hall) as (r & Er & ->). simpl.
      split; [done|]. split; [by exists r|]. split; [done|]. split; [|done].
      left. by split.
    + destruct (analyze_file_unknown tab t l1 l2 j Hwf Hsplit Hl1 Hj) as (r & Er & ->).
      simpl. split; [done|]. split; [by exists r|]. split; [done|]. split; [|done].
      right. by exists l1, j, l2.
  - destruct (selection_cases (num_modes t) selected)
      as [Hall|(l1 & j & l2 & -> & Hl1 & Hj)].
    + rewrite (set_modes_Ok tab t selected Hwf Hres Hall). simpl.
      split; [done|]. split; [done|]. split; [done|]. split; [|done].
      left. by split.
    + rewrite (set_modes_unknown tab t l1 l2 j Hwf Hres Hl1 Hj). simpl.
      split; [done|]. split; [done|]. split; [done|]. split.
      * right. by exists l1, j, l2.
      * intros Hall. by apply not_all_known in Hall.
Qed.

(** [reduce_results] on a tensor with fewer than five columns. *)
Lemma reduce_results_too_few_columns {num : Type} `{!Arith num} (t : ndarray3 num) :
  regular t → 0 < num_modes t → 0 < num_steps t → num_columns t ≤ 4 →
  reduce_results t = Raise IndexError.
Proof.
  intros [Hn Hm] Hmodes Hsteps Hcols.
  unfold reduce_results. apply for_range_first_raises; [done|].
  apply for_range_first_raises; [done|].
  destruct (lookup_lt_is_Some_2 (results t) 0) as [mode Hmode]; [lia|].
  destruct (Forall_lookup_1 _ _ _ _ Hm Hmode) as [Hs Hc].
  destruct (lookup_lt_is_Some_2 mode 0) as [row Hrow]; [lia|].
  pose proof (Forall_lookup_1 _ _ _ _ Hc Hrow) as Hlen. simpl in Hlen.
  unfold reduce_step, getitem3.
  rewrite (getitem_Ok _ _ _ Hmode). simpl. rewrite (getitem_Ok _ _ _ Hrow). simpl.
  assert (getitem row 4 = Raise IndexError) as E4.
  { unfold getitem. by rewrite lookup_ge_None_2 by lia. }
  destruct (row !! 2) as [v|] eqn:E2.
  - rewrite (getitem_Ok _ _ _ E2). simpl.
    rewrite setitem_Ok by (unfold zeros; rewrite length_replicate; lia). simpl.
    by rewrite E4.
  - assert (getitem row 2 = Raise IndexError) as ->; [|done].
    unfold getitem. by rewrite E2.
Qed.

(** The marks after the only mark that is set is taken away. *)
Lemma checked_indices_none (checked_modes : list bool) (mode : nat) :
  (∀ i, checked_modes !! i = Some true → i = mode) →
  checked_indices (<[mode := false]> checked_modes) = [].
Proof.
  intros Honly. unfold checked_indices. apply filter_none. intros i _ Hi.
  destruct (decide (i = mode)) as [->|Hne].
  - apply lookup_lt_Some in Hi as Hlt. rewrite length_insert in Hlt.
    by rewrite list_lookup_insert_eq in Hi by done.
  - rewrite list_lookup_insert_ne in Hi by done. by apply Honly in Hi.
Qed.

(** ** File names *)

Lemma list_ascii_of_lower (s : string) :
  list_ascii_of_string (lower s) = map ascii_lower (list_ascii_of_string s).
Proof. induction s as [|c s IH]; [done|]. simpl. by rewrite IH. Qed.

Lemma list_ascii_of_string_app (s1 s2 : string) :
  list_ascii_of_string (s1 ++ s2)
  = list_ascii_of_string s1 ++ list_ascii_of_string s2.
Proof.
  induction s1 as [|c s1 IH]; [done|].
  change (String c s1 ++ s2)%string with (String c (s1 ++ s2)).
  simpl. by rewrite IH.
Qed.

Lemma string_of_list_ascii_app (l1 l2 : list ascii) :
  string_of_list_ascii (l1 ++ l2)
  = (string_of_list_ascii l1 ++ string_of_list_ascii l2)%string.
Proof.
  induction l1 as [|c l1 IH]; [done|]. simpl. rewrite IH. done.
Qed.

(** The characters that become a character of the suffix in lower case. *)
Lemma ascii_lower_dot (c : ascii) : ascii_lower c = "."%char ↔ c = "."%char.
Proof.
  destruct c as [[] [] [] [] [] [] [] []]; vm_compute; split; intros H;
    (discriminate H || reflexivity).
Qed.

Lemma ascii_lower_0 (c : ascii) : ascii_lower c = "0"%char ↔ c = "0"%char.
Proof.
  destruct c as [[] [] [] [] [] [] [] []]; vm_compute; split; intros H;
    (discriminate H || reflexivity).
Qed.

Lemma ascii_lower_6 (c : ascii) : ascii_lower c = "6"%char ↔ c = "6"%char.
Proof.
  destruct c as [[] [] [] [] [] [] [] []]; vm_compute; split; intros H;
    (discriminate H || reflexivity).
Qed.

Lemma ascii_lower_f (c : ascii) :
  ascii_lower c = "f"%char ↔ c = "f"%char ∨ c = "F"%char.
Proof.
  destruct c as [[] [] [] [] [] [] [] []]; vm_compute; split; intros H;
    try discriminate H; try (destruct H as [H|H]; discriminate H);
    try reflexivity; auto.
Qed.

(** ** Exact roots along an increasing sweep *)

Lemma increasing_sweep (v : list Q) (n : nat) :
  (∀ i, i + 1 < n → (v !!! i < v !!! (i + 1)%nat)%Q) →
  ∀ i j, i ≤ j → j < n → (v !!! i <= v !!! j)%Q.
Proof.
  intros Hstep i j Hij Hj. induction j as [|j IH].
  - replace i with 0 by lia. apply Qle_refl.
  - destruct (decide (i = S j)) as [->|Hne]; [apply Qle_refl|].
    apply Qle_trans with (v !!! j); [apply IH; lia|].
    apply Qlt_le_weak. replace (S j) with (j + 1) by lia. apply Hstep. lia.
Qed.

Lemma exact_root_between (v d : list Q) (n i : nat) :
  (∀ i, i + 1 < n → (v !!! i < v !!! (i + 1)%nat)%Q) →
  i + 1 < n → sign_change d i = true →
  (v !!! i < root_at v d i ∧ root_at v d i < v !!! (i + 1)%nat)%Q.
Proof.
  intros Hstep Hi Hguard. unfold sign_change in Hguard. simpl in Hguard.
  apply Qltb_lt in Hguard.
  destruct (exact_root _ _ (v !!! i) (v !!! (i + 1)) Hguard) as (Hlt & _ & _).
  apply Hlt, Hstep, Hi.
Qed.

Lemma exact_roots_sorted (v d : list Q) (n : nat) (l : list nat) :
  (∀ i, i + 1 < n → (v !!! i < v !!! (i + 1)%nat)%Q) →
  StronglySorted lt l →
  (∀ i, i ∈ l → i + 1 < n ∧ sign_change d i = true) →
  StronglySorted Qlt (map (root_at v d) l).
Proof.
  intros Hstep Hsorted. induction Hsorted as [|i l Hsorted IH Hall]; intros Hl.
  - constructor.
  - cbn [map]. constructor.
    + apply IH. intros k Hk. apply Hl. by right.
    + apply Forall_forall. intros r Hr.
      apply list_elem_of_In, in_map_iff in Hr as (j & <- & Hj).
      apply list_elem_of_In in Hj.
      rewrite Forall_forall in Hall. pose proof (Hall j Hj) as Hij.
      destruct (Hl i) as [Hi Hgi]; [left|].
      destruct (Hl j) as [Hjn Hgj]; [by right|].
      destruct (exact_root_between v d n i Hstep Hi Hgi) as [_ Hup].
      destruct (exact_root_between v d n j Hstep Hjn Hgj) as [Hlow _].
      apply Qlt_trans with (v !!! (i + 1)); [done|].
      apply Qle_lt_trans with (v !!! j); [|done].
      apply (increasing_sweep v n Hstep); lia.
Qed.

(** * The claims *)

(** ** C1: short sweeps *)

(** C1, as the code behaves: a tensor with a single flow step, and a tensor
    with no mode, are reduced without any exception, and every mode gets an
    empty list of roots. *)
Lemma get_flutter_single_step_returns :
  well_formed t_one_step ∧ num_steps t_one_step = 1 ∧
  get_flutter t_one_step = Ok ([10], [[3]], [[0.5]], {[ 0%nat := [] ]})%float ∧
  well_formed t_no_mode ∧ num_modes t_no_mode = 0 ∧
  get_flutter t_no_mode = Ok ([0; 0; 0], [[]; []; []], [[]; []; []], ∅)%float.
Proof.
  split; [by apply (bool_decide_unpack _)|]. split; [done|]. split; [done|].
  split; [by apply (bool_decide_unpack _)|]. done.
Qed.

(** C1 (amended): on a well-formed tensor with no mode or with fewer than two
    flow steps [get_flutter] raises nothing; it returns the reshaped series,
    and a root set in which every mode of the tensor has an empty sequence
    (the loop over the pairs of steps has nothing to visit). *)
Theorem get_flutter_short_sweep {num : Type} `{!Arith num} (t : ndarray3 num) :
  well_formed t → num_modes t = 0 ∨ num_steps t < 2 →
  ∃ v f d roots,
    get_flutter t = Ok (v, f, d, roots) ∧
    length v = num_steps t ∧
    ∀ m, roots !! m = if decide (m < num_modes t) then Some [] else None.
Proof.
  intros Hwf Hshort. destruct (get_flutter_Ok t Hwf) as (f & d & roots & E & _ & Hr).
  exists (sweep t), f, d, roots. split; [done|]. split; [apply length_sweep|].
  intros m. rewrite Hr. destruct (decide (m < num_modes t)) as [Hm|Hm]; [|done].
  unfold mode_roots, crossing_steps.
  assert (num_steps t - 1 = 0) as -> by lia. done.
Qed.

Lemma get_flutter_short_sweep_witness :
  ∃ v f d roots,
    get_flutter t_one_step = Ok (v, f, d, roots) ∧
    length v = num_steps t_one_step ∧
    ∀ m, roots !! m = if decide (m < num_modes t_one_step) then Some [] else None.
Proof.
  apply (get_flutter_short_sweep t_one_step).
  - by apply (bool_decide_unpack _).
  - right. simpl. lia.
Defined.

(** ** C2: the reduction against the reference extraction *)

(** C2, as the code behaves: the velocities returned are those of the last
    mode, not those of mode 0. *)
Lemma reduce_results_keeps_last_mode :
  well_formed t_two_sweeps ∧
  reduce_results t_two_sweeps
    = Ok ([30; 40], [[5; 7]; [6; 8]], [[1; 3]; [2; 4]])%float ∧
  reference_extraction t_two_sweeps
    = ([10; 20], [[5; 7]; [6; 8]], [[1; 3]; [2; 4]])%float ∧
  reduce_results t_two_sweeps ≠ Ok (reference_extraction t_two_sweeps).
Proof.
  split; [by apply (bool_decide_unpack _)|]. split; [done|]. split; [done|].
  intros E. apply (f_equal (λ r, match r with
                                 | Ok (v, _, _) => Prim2SF (v !!! 0)
                                 | Raise _ => S754_nan
                                 end)) in E.
  vm_compute in E. discriminate E.
Qed.

(** C2 (amended): on a well-formed tensor the reduction returns fully
    populated arrays; [frequencies[step, mode]] and [dampings[step, mode]]
    are the tensor's entries for every pair, and [velocities[step]] is the
    velocity column of the last mode at that step (every mode overwrites it
    in turn).  The result is the reference extraction whenever the modes
    share one velocity sweep. *)
Theorem reduce_results_extracts {num : Type} `{!Arith num} (t : ndarray3 num) :
  well_formed t →
  ∃ velocities frequencies dampings,
    reduce_results t = Ok (velocities, frequencies, dampings) ∧
    length velocities = num_steps t ∧
    shape2 (num_steps t) (num_modes t) frequencies ∧
    shape2 (num_steps t) (num_modes t) dampings ∧
    (∀ step, step < num_steps t → 0 < num_modes t →
       velocities !! step = Some (entry t (num_modes t - 1) step 2)) ∧
    (∀ step mode, step < num_steps t → mode < num_modes t →
       lookup2 frequencies step mode = Some (entry t mode step 4) ∧
       lookup2 dampings step mode = Some (entry t mode step 3)) ∧
    (0 < num_modes t → common_sweep t →
       (velocities, frequencies, dampings) = reference_extraction t).
Proof.
  intros Hwf. destruct (reduce_results_Ok t Hwf) as (f & d & E & Hf & Hd & Hfd & _).
  exists (sweep t), f, d. split; [done|]. split; [apply length_sweep|].
  split; [done|]. split; [done|]. split; [|split; [done|]].
  - intros step Hstep Hm. unfold sweep. destruct (num_modes t) as [|k]; [lia|].
    rewrite lookup_map_seq. rewrite decide_True by done.
    by replace (S k - 1) with k by lia.
  - intros Hm Hcommon. unfold reference_extraction. f_equal; [f_equal|].
    + unfold sweep. destruct (num_modes t) as [|k] eqn:Ek; [lia|].
      apply list_eq. intros j. rewrite !lookup_map_seq.
      destruct (decide (j < num_steps t)); [|done].
      f_equal. apply Hcommon; lia.
    + destruct (shape2_table (λ step mode, entry t mode step 4)
                  (num_steps t) (num_modes t)) as [Hs Hl].
      apply (shape2_ext _ _ _ _ Hf Hs). intros i j Hi Hj.
      rewrite Hl by done. by apply Hfd.
    + destruct (shape2_table (λ step mode, entry t mode step 3)
                  (num_steps t) (num_modes t)) as [Hs Hl].
      apply (shape2_ext _ _ _ _ Hd Hs). intros i j Hi Hj.
      rewrite Hl by done. by apply Hfd.
Qed.

Lemma reduce_results_extracts_witness :
  ∃ velocities frequencies dampings,
    reduce_results t_one_step = Ok (velocities, frequencies, dampings) ∧
    length velocities = num_steps t_one_step ∧
    shape2 (num_steps t_one_step) (num_modes t_one_step) frequencies ∧
    shape2 (num_steps t_one_step) (num_modes t_one_step) dampings ∧
    (∀ step, step < num_steps t_one_step → 0 < num_modes t_one_step →
       velocities !! step = Some (entry t_one_step (num_modes t_one_step - 1) step 2)) ∧
    (∀ step mode, step < num_steps t_one_step → mode < num_modes t_one_step →
       lookup2 frequencies step mode = Some (entry t_one_step mode step 4) ∧
       lookup2 dampings step mode = Some (entry t_one_step mode step 3)) ∧
    (0 < num_modes t_one_step → common_sweep t_one_step →
       (velocities, frequencies, dampings) = reference_extraction t_one_step).
Proof.
  apply (reduce_results_extracts t_one_step).
  by apply (bool_decide_unpack _).
Defined.

(** ** C3: the guard is strict *)

(** C3: iteration [i] of the loop over the steps appends a root exactly when
    [damping[i] * damping[i+1] < 0] holds, and leaves the list as it is
    otherwise; what [get_flutter] stores for a mode is the list this loop has
    built over the mode's damping column when it ends.  The pair [1.0, 0.0]
    has product zero and gives no root; the pair [1.0, -1.0] gives exactly
    one. *)
Theorem root_appended_iff_sign_change :
  (∀ {num : Type} `{!Arith num} (velocities mode_damping : list num) (i : nat),
     i + 1 < length mode_damping → i + 1 < length velocities →
     ∃ before after,
       roots_after velocities mode_damping i = Ok before ∧
       roots_after velocities mode_damping (i + 1) = Ok after ∧
       (nltb (nmul (mode_damping !!! i) (mode_damping !!! (i + 1))) nzero = true →
          after = before ++ [root_at velocities mode_damping i]) ∧
       (nltb (nmul (mode_damping !!! i) (mode_damping !!! (i + 1))) nzero = false →
          after = before) ∧
       (length after = S (length before) ↔
          nltb (nmul (mode_damping !!! i) (mode_damping !!! (i + 1))) nzero = true)) ∧
  (∀ {num : Type} `{!Arith num} (t : ndarray3 num) (m : nat),
     well_formed t → m < num_modes t →
     ∃ v f d (roots : gmap nat (list num)) (mode_roots : list num),
       get_flutter t = Ok (v, f, d, roots) ∧
       roots !! m = Some mode_roots ∧
       roots_after v (mode_damping t m) (num_steps t - 1) = Ok mode_roots) ∧
  (∀ a b : float, find_mode_roots 2 [a; b] [1; 0]%float = Ok []) ∧
  (∀ a b : float,
     find_mode_roots 2 [a; b] [1; -1]%float = Ok [interpolate 1 (-1) a b]%float).
Proof.
  split; [|split; [|split; done]].
  2: { intros num ? t m Hwf Hm.
       destruct (get_flutter_mode_loop t m Hwf Hm) as (f & d & roots & E & Hr & Hloop).
       by exists (sweep t), f, d, roots, (mode_roots t m). }
  intros num ? v d i Hd Hv.
  destruct (roots_after_step v d i Hd Hv) as (before & Hbefore & Hafter).
  exists before, (if sign_change d i then before ++ [root_at v d i] else before).
  split; [done|]. split; [done|].
  change (nltb (nmul (d !!! i) (d !!! (i + 1))) nzero) with (sign_change d i).
  destruct (sign_change d i).
  - split; [done|]. split; [done|]. rewrite length_app. simpl. split; [done|lia].
  - split; [done|]. split; [done|]. split; [lia|done].
Qed.

Lemma root_appended_iff_sign_change_witness :
  ∃ before after,
    roots_after [10; 20; 30]%float [1; -1; -2]%float 0 = Ok before ∧
    roots_after [10; 20; 30]%float [1; -1; -2]%float (0 + 1) = Ok after ∧
    (PrimFloat.ltb ([1; -1; -2]%float !!! 0 * [1; -1; -2]%float !!! (0 + 1)) 0 = true →
       after = before ++ [root_at [10; 20; 30]%float [1; -1; -2]%float 0]) ∧
    (PrimFloat.ltb ([1; -1; -2]%float !!! 0 * [1; -1; -2]%float !!! (0 + 1)) 0 = false →
       after = before) ∧
    (length after = S (length before) ↔
       PrimFloat.ltb ([1; -1; -2]%float !!! 0 * [1; -1; -2]%float !!! (0 + 1)) 0 = true).
Proof.
  apply (proj1 root_appended_iff_sign_change float float64
           [10; 20; 30]%float [1; -1; -2]%float 0); simpl; lia.
Defined.

(** ** C4: a zero sample between a positive and a negative one *)

(** C4, as the code behaves: with the damping sequence [1.0, 0.0, -1.0] both
    products are zero ([1.0 * 0.0] and [0.0 * -1.0]), so no pair passes the
    strict guard and the mode gets no root at all. *)
Lemma zero_sample_no_root :
  well_formed t_zero_sample ∧
  mode_damping t_zero_sample 0 = [1; 0; -1]%float ∧
  get_flutter t_zero_sample
    = Ok ([10; 20; 30], [[2]; [2]; [2]], [[1]; [0]; [-1]], {[ 0%nat := [] ]})%float ∧
  PrimFloat.ltb (1 * 0) 0 = false ∧ PrimFloat.ltb (0 * -1) 0 = false.
Proof. split; [by apply (bool_decide_unpack _)|]. done. Qed.

(** C4 (amended): a mode whose damping sequence is [1.0, 0.0, -1.0] gets an
    empty sequence of roots: the root finder reports no crossing for the pair
    (1.0, 0.0) nor for the pair (0.0, -1.0). *)
Theorem zero_sample_mode_has_no_root (t : ndarray3 float) (m : nat) :
  well_formed t → m < num_modes t → mode_damping t m = [1; 0; -1]%float →
  ∃ v f d (roots : gmap nat (list float)),
    get_flutter t = Ok (v, f, d, roots) ∧ roots !! m = Some [].
Proof.
  intros Hwf Hm Hd. destruct (get_flutter_Ok t Hwf) as (f & d & roots & E & _ & Hr).
  exists (sweep t), f, d, roots. split; [done|].
  rewrite Hr, decide_True by done. f_equal. unfold mode_roots. rewrite Hd.
  assert (num_steps t = 3) as ->.
  { apply (f_equal length) in Hd. unfold mode_damping in Hd.
    by rewrite length_map, length_seq in Hd. }
  done.
Qed.

Lemma zero_sample_mode_has_no_root_witness :
  ∃ v f d (roots : gmap nat (list float)),
    get_flutter t_zero_sample = Ok (v, f, d, roots) ∧ roots !! 0 = Some [].
Proof.
  apply (zero_sample_mode_has_no_root t_zero_sample 0).
  - by apply (bool_decide_unpack _).
  - simpl. lia.
  - reflexivity.
Defined.

(** ** C5: the interpolation formula *)

(** C5: at every step where the sign changes, the root appended is
    [velocity[i] + damping[i] / (damping[i] - damping[i+1]) *
     (velocity[i+1] - velocity[i])], computed in binary64; with velocities
    [10.0, 20.0] and dampings [2.0, -2.0] it is exactly [15.0]. *)
Theorem root_is_linear_interpolation :
  (∀ (velocity damping : list float) (i : nat),
     i + 1 < length damping → i + 1 < length velocity →
     sign_change damping i = true →
     ∃ before,
       roots_after velocity damping i = Ok before ∧
       roots_after velocity damping (i + 1)
         = Ok (before ++ [velocity !!! i
                          + damping !!! i / (damping !!! i - damping !!! (i + 1)%nat)
                            * (velocity !!! (i + 1)%nat - velocity !!! i)])%float) ∧
  find_mode_roots 2 [10; 20]%float [2; -2]%float = Ok [15%float].
Proof.
  split; [|done]. intros v d i Hd Hv Hsign.
  destruct (roots_after_step v d i Hd Hv) as (before & Hb & Ha).
  exists before. split; [done|]. rewrite Ha, Hsign.
  unfold root_at, interpolate. simpl. by rewrite float_add_comm.
Qed.

Lemma root_is_linear_interpolation_witness :
  ∃ before,
    roots_after [10; 20]%float [2; -2]%float 0 = Ok before ∧
    roots_after [10; 20]%float [2; -2]%float (0 + 1)
      = Ok (before ++ [[10; 20] !!! 0%nat
                       + [2; -2] !!! 0%nat / ([2; -2] !!! 0%nat - [2; -2] !!! (0 + 1)%nat)
                         * ([10; 20] !!! (0 + 1)%nat - [10; 20] !!! 0%nat)])%float.
Proof.
  apply (proj1 root_is_linear_interpolation [10; 20]%float [2; -2]%float 0).
  - simpl. lia.
  - simpl. lia.
  - reflexivity.
Defined.

(** ** C6: the keys of the root set *)

(** C6: on a well-formed tensor (in particular one with at least one mode and
    at least two flow steps) the root set returned has exactly the keys
    [0 .. num_modes - 1], [num_modes] of them, each bound to a sequence; a
    mode without any sign change is bound to the empty sequence. *)
Theorem get_flutter_keys {num : Type} `{!Arith num} (t : ndarray3 num) :
  well_formed t → 1 ≤ num_modes t → 2 ≤ num_steps t →
  ∃ v f d (roots : gmap nat (list num)),
    get_flutter t = Ok (v, f, d, roots) ∧
    dom roots = set_seq 0 (num_modes t) ∧
    size roots = num_modes t ∧
    (∀ m, m < num_modes t ↔ is_Some (roots !! m)) ∧
    (∀ m, m < num_modes t →
       (∀ i, i + 1 < num_steps t → sign_change (mode_damping t m) i = false) →
       roots !! m = Some []).
Proof.
  intros Hwf _ _. destruct (get_flutter_Ok t Hwf) as (f & d & roots & E & _ & Hr).
  exists (sweep t), f, d, roots. split; [done|].
  assert (dom roots = set_seq 0 (num_modes t)) as Hdom.
  { apply set_eq. intros k. rewrite elem_of_dom, elem_of_set_seq, Hr.
    destruct (decide (k < num_modes t)).
    - split; [lia|]. by eexists.
    - split; [by intros [? ?]|lia]. }
  split; [done|]. split; [|split].
  - by rewrite <- (size_dom (D:=gset nat)), Hdom, size_set_seq.
  - intros m. rewrite Hr. destruct (decide (m < num_modes t)).
    + split; [by eexists|done].
    + split; [lia|by intros [? ?]].
  - intros m Hm Hno. rewrite Hr, decide_True by done. f_equal.
    unfold mode_roots, crossing_steps.
    rewrite filter_none; [done|]. intros i Hi.
    apply list_elem_of_In, in_seq in Hi. rewrite Hno by lia. done.
Qed.

Lemma get_flutter_keys_witness :
  ∃ v f d (roots : gmap nat (list float)),
    get_flutter t_three_crossings = Ok (v, f, d, roots) ∧
    dom roots = set_seq 0 (num_modes t_three_crossings) ∧
    size roots = num_modes t_three_crossings ∧
    (∀ m, m < num_modes t_three_crossings ↔ is_Some (roots !! m)) ∧
    (∀ m, m < num_modes t_three_crossings →
       (∀ i, i + 1 < num_steps t_three_crossings →
             sign_change (mode_damping t_three_crossings m) i = false) →
       roots !! m = Some []).
Proof.
  apply (get_flutter_keys t_three_crossings).
  - by apply (bool_decide_unpack _).
  - simpl. lia.
  - simpl. lia.
Defined.

(** ** C7: the order of the roots of a mode *)

(** C7: the roots stored for a mode are the values interpolated at the steps
    where the sign changes, listed by increasing step; so there are as many
    roots as sign changes.  A mode with three sign changes over five steps
    gets three roots, in the order of the steps. *)
Theorem get_flutter_roots_by_step :
  (∀ {num : Type} `{!Arith num} (t : ndarray3 num) (m : nat),
     well_formed t → m < num_modes t →
     ∃ v f d (roots : gmap nat (list num)) (steps : list nat),
       get_flutter t = Ok (v, f, d, roots) ∧
       roots !! m = Some (map (root_at v (mode_damping t m)) steps) ∧
       StronglySorted lt steps ∧
       ∀ i, i ∈ steps ↔ i + 1 < num_steps t ∧ sign_change (mode_damping t m) i = true) ∧
  get_flutter t_three_crossings
    = Ok ([10; 20; 30; 40; 50], [[2]; [2]; [2]; [2]; [2]],
          [[1]; [-1]; [1]; [-1]; [-2]], {[ 0%nat := [15; 25; 35] ]})%float.
Proof.
  split; [|done].
  intros num ? t m Hwf Hm.
  destruct (get_flutter_Ok t Hwf) as (f & d & roots & E & _ & Hr).
  exists (sweep t), f, d, roots, (crossing_steps (mode_damping t m) (num_steps t)).
  split; [done|]. split; [by rewrite Hr, decide_True|]. split.
  - apply StronglySorted_filter, StronglySorted_seq.
  - intros i. unfold crossing_steps.
    rewrite list_elem_of_filter, list_elem_of_In, in_seq. intuition lia.
Qed.

Lemma get_flutter_roots_by_step_witness :
  ∃ v f d (roots : gmap nat (list float)) (steps : list nat),
    get_flutter t_three_crossings = Ok (v, f, d, roots) ∧
    roots !! 0 = Some (map (root_at v (mode_damping t_three_crossings 0)) steps) ∧
    StronglySorted lt steps ∧
    ∀ i, i ∈ steps ↔ i + 1 < num_steps t_three_crossings
                     ∧ sign_change (mode_damping t_three_crossings 0) i = true.
Proof.
  apply (proj1 get_flutter_roots_by_step float float64 t_three_crossings 0).
  - by apply (bool_decide_unpack _).
  - simpl. lia.
Defined.

(** ** C8: the report *)



(** ** C9: runs of [get_flutter] *)

(** C9: a tensor determines the outcome of [get_flutter]: two runs on the same
    tensor end with the same velocities, frequencies, dampings and roots (or
    with the same exception), and a run always exists, namely the one the
    function [get_flutter] computes. *)
Theorem get_flutter_deterministic {num : Type} `{!Arith num} (t : ndarray3 num) :
  (∀ r1 r2, runs_get_flutter t r1 → runs_get_flutter t r2 → r1 = r2) ∧
  runs_get_flutter t (get_flutter t).
Proof.
  assert (∀ s r1 r2, runs_reduce t s r1 → runs_reduce t s r2 → r1 = r2) as Hred.
  { intros s r1 r2. apply runs_range_deterministic. clear.
    intros i s r1 r2. apply runs_range_deterministic. congruence. }
  assert (∀ v d i s r1 r2, runs_mode (num_steps t) v d i s r1 →
                           runs_mode (num_steps t) v d i s r2 → r1 = r2) as Hmode.
  { intros v d i s r1 r2. unfold runs_mode. destruct (column d i); [|congruence].
    intros (r1' & H1 & ->) (r2' & H2 & ->).
    assert (r1' = r2') as ->; [|done].
    revert H1 H2. apply runs_range_deterministic. congruence. }
  split.
  - intros r1 r2 H1 H2.
    destruct H1 as [e1 H1|v1 f1 d1 r1 H1 H1'], H2 as [e2 H2|v2 f2 d2 r2 H2 H2'].
    + by pose proof (Hred _ _ _ H1 H2) as [= ->].
    + by pose proof (Hred _ _ _ H1 H2).
    + by pose proof (Hred _ _ _ H1 H2).
    + pose proof (Hred _ _ _ H1 H2) as [= -> -> ->].
      by rewrite (runs_range_deterministic _ _ _ _ _ _ (Hmode _ _) H1' H2').
  - unfold get_flutter.
    assert (runs_reduce t
              (zeros (num_steps t), zeros2 (num_steps t) (num_modes t),
               zeros2 (num_steps t) (num_modes t)) (reduce_results t)) as Hrun.
    { unfold runs_reduce, reduce_results. apply runs_range_for_range.
      intros i s. by apply runs_range_for_range. }
    destruct (reduce_results t) as [[[v f] d]|e] eqn:E; simpl.
    + apply (runs_roots t v f d); [done|].
      unfold find_roots. apply runs_range_for_range. intros i roots.
      unfold runs_mode. destruct (column d i) as [md|e]; simpl; [|done].
      eexists. split; [|done]. unfold find_mode_roots.
      by apply runs_range_for_range.
    + by apply runs_reduce_raises.
Qed.

(** A run of [get_flutter] built rule by rule ends as the function says. *)
Lemma get_flutter_deterministic_witness :
  get_flutter t_one_step = Ok ([10], [[3]], [[0.5]], {[ 0%nat := [] ]})%float.
Proof.
  apply (proj1 (get_flutter_deterministic t_one_step)).
  - apply (proj2 (get_flutter_deterministic t_one_step)).
  - apply (runs_roots t_one_step [10] [[3]] [[0.5]] (Ok {[ 0%nat := [] ]}))%float.
    + eapply runs_range_iter; [simpl; lia| |apply runs_range_end; simpl; lia].
      eapply runs_range_iter; [simpl; lia|reflexivity|].
      apply runs_range_end. simpl. lia.
    + eapply runs_range_iter; [simpl; lia| |apply runs_range_end; simpl; lia].
      unfold runs_mode. simpl. eexists. split; [apply runs_range_end; lia|].
      reflexivity.
Defined.


(** ** C10: the guard and the denominator *)

(** C10, as the code behaves: a root need not lie strictly between the two
    velocities.  When the two velocities are equal the root is equal to both;
    and in binary64 the weight can round to [1.0] (here [1 - -2^-60] rounds to
    [1]), so that the root is the right end of the bracket. *)
Lemma root_not_strictly_inside :
  (nltb (nmul 1 (-1)) nzero = true ∧
   interpolate 1 (-1) 5 5 = 5 ∧
   nltb 5 (interpolate 1 (-1) 5 5) = false)%float ∧
  (nltb (nmul 1 (-0x1p-60)) nzero = true ∧
   ndiv 1 (nsub 1 (-0x1p-60)) = 1 ∧
   nltb (ndiv 1 (nsub 1 (-0x1p-60))) 1 = false ∧
   interpolate 1 (-0x1p-60) 0 1 = 1 ∧
   nltb (interpolate 1 (-0x1p-60) 0 1) 1 = false)%float.
Proof. done. Qed.

(** C10 (amended): whenever the guard [fa * fb < 0] holds, the denominator
    [fa - fb] is neither zero nor NaN in binary64, so the division never
    divides by zero.  In exact arithmetic, moreover, the weight
    [fa / (fa - fb)] lies strictly between 0 and 1, and the root lies strictly
    between [velocities[i]] and [velocities[i+1]] whenever these differ; it
    is equal to them when they are equal. *)
Theorem guard_gives_nonzero_denominator :
  (∀ fa fb : float,
     nltb (nmul fa fb) nzero = true →
     PrimFloat.eqb (nsub fa fb) 0 = false ∧
     PrimFloat.eqb (nsub fa fb) (nsub fa fb) = true) ∧
  (∀ fa fb a b : Q,
     nltb (nmul fa fb) nzero = true →
     (¬ nsub fa fb == 0 ∧
      0 < ndiv fa (nsub fa fb) ∧ ndiv fa (nsub fa fb) < 1 ∧
      (a < b → a < interpolate fa fb a b ∧ interpolate fa fb a b < b) ∧
      (b < a → b < interpolate fa fb a b ∧ interpolate fa fb a b < a) ∧
      (a == b → interpolate fa fb a b == a))%Q).
Proof.
  split.
  - intros fa fb Hguard. by apply float_denominator_nonzero.
  - intros fa fb a b Hguard. simpl in Hguard. apply Qltb_lt in Hguard.
    destruct (exact_weight fa fb Hguard) as (Hden & H0 & H1).
    destruct (exact_root fa fb a b Hguard) as (Hlt & Hgt & Heq).
    simpl. done.
Qed.

Lemma guard_gives_nonzero_denominator_witness :
  (PrimFloat.eqb (nsub 2 (-2)) 0 = false ∧
   PrimFloat.eqb (nsub 2 (-2)) (nsub 2 (-2)) = true)%float ∧
  (¬ nsub 2 (-2) == 0 ∧
   0 < ndiv 2 (nsub 2 (-2)) ∧ ndiv 2 (nsub 2 (-2)) < 1 ∧
   (10 < 20 → 10 < interpolate 2 (-2) 10 20 ∧ interpolate 2 (-2) 10 20 < 20) ∧
   (20 < 10 → 20 < interpolate 2 (-2) 10 20 ∧ interpolate 2 (-2) 10 20 < 10) ∧
   (10 == 20 → interpolate 2 (-2) 10 20 == 10))%Q.
Proof.
  split.
  - apply (proj1 guard_gives_nonzero_denominator 2%float (-2)%float). reflexivity.
  - apply (proj2 guard_gives_nonzero_denominator 2%Q (-2)%Q 10%Q 20%Q). reflexivity.
Defined.

(** * Further properties of the code *)

(** ** [get_flutter] *)

(** X1: on a regular tensor with at least one mode and one flow step but
    fewer than five columns, [get_flutter] raises [IndexError]: the first
    visit of the loops reads a column that is not there, and nothing is
    returned. *)
Theorem get_flutter_too_few_columns {num : Type} `{!Arith num} (t : ndarray3 num) :
  regular t → 0 < num_modes t → 0 < num_steps t → num_columns t ≤ 4 →
  get_flutter t = Raise IndexError.
Proof.
  intros [Hn Hm] Hmodes Hsteps Hcols.
  assert (reduce_results t = Raise IndexError) as E; [|unfold get_flutter; by rewrite E].
  unfold reduce_results. apply for_range_first_raises; [done|].
  apply for_range_first_raises; [done|].
  destruct (lookup_lt_is_Some_2 (results t) 0) as [mode Hmode]; [lia|].
  destruct (Forall_lookup_1 _ _ _ _ Hm Hmode) as [Hs Hc].
  destruct (lookup_lt_is_Some_2 mode 0) as [row Hrow]; [lia|].
  pose proof (Forall_lookup_1 _ _ _ _ Hc Hrow) as Hlen. simpl in Hlen.
  unfold reduce_step, getitem3.
  rewrite (getitem_Ok _ _ _ Hmode). simpl. rewrite (getitem_Ok _ _ _ Hrow). simpl.
  assert (getitem row 4 = Raise IndexError) as E4.
  { unfold getitem. by rewrite lookup_ge_None_2 by lia. }
  destruct (row !! 2) as [v|] eqn:E2.
  - rewrite (getitem_Ok _ _ _ E2). simpl.
    rewrite setitem_Ok by (unfold zeros; rewrite length_replicate; lia). simpl.
    by rewrite E4.
  - assert (getitem row 2 = Raise IndexError) as ->; [|done].
    unfold getitem. by rewrite E2.
Qed.

Lemma get_flutter_too_few_columns_witness :
  get_flutter t_three_columns = Raise IndexError.
Proof.
  apply (get_flutter_too_few_columns t_three_columns).
  - by apply (bool_decide_unpack _).
  - simpl. lia.
  - simpl. lia.
  - simpl. lia.
Defined.

(** X2: the roots depend on the damping column and on the velocity column of
    the last mode only.  Two well-formed tensors of the same shape that agree
    there give the same velocities, the same dampings and the same roots,
    whatever their frequencies and their other columns are. *)
Theorem get_flutter_roots_ignore_other_columns {num : Type} `{!Arith num}
    (t t' : ndarray3 num) :
  well_formed t → well_formed t' →
  num_modes t = num_modes t' → num_steps t = num_steps t' →
  (∀ mode step, mode < num_modes t → step < num_steps t →
     entry t mode step 3 = entry t' mode step 3) →
  (∀ step, step < num_steps t →
     entry t (num_modes t - 1) step 2 = entry t' (num_modes t - 1) step 2) →
  ∃ velocities frequencies frequencies' dampings roots,
    get_flutter t = Ok (velocities, frequencies, dampings, roots) ∧
    get_flutter t' = Ok (velocities, frequencies', dampings, roots).
Proof.
  intros Hwf Hwf' Hmodes Hsteps Hdamping Hvelocity.
  destruct (get_flutter_Ok t Hwf) as (f & d & roots & E & Ered & Hr).
  destruct (get_flutter_Ok t' Hwf') as (f' & d' & roots' & E' & Ered' & Hr').
  destruct (reduce_results_Ok t Hwf) as (f0 & d0 & E0 & _ & Hd & Hfd & _).
  destruct (reduce_results_Ok t' Hwf') as (f0' & d0' & E0' & _ & Hd' & Hfd' & _).
  rewrite Ered in E0. injection E0 as <- <-.
  rewrite Ered' in E0'. injection E0' as <- <-.
  assert (sweep t' = sweep t) as Hsweep.
  { unfold sweep. rewrite <- Hmodes, <- Hsteps.
    destruct (num_modes t) as [|k] eqn:Ek; [done|].
    apply list_eq. intros j. rewrite !lookup_map_seq.
    destruct (decide (j < num_steps t)); [|done].
    f_equal. symmetry. replace k with (S k - 1) by lia. by apply Hvelocity. }
  assert (∀ m, m < num_modes t → mode_damping t' m = mode_damping t m) as Hcolumn.
  { intros m Hm. unfold mode_damping. rewrite <- Hsteps.
    apply list_eq. intros j. rewrite !lookup_map_seq.
    destruct (decide (j < num_steps t)); [|done].
    f_equal. symmetry. by apply Hdamping. }
  assert (d' = d) as ->.
  { rewrite <- Hmodes, <- Hsteps in Hd'. apply (shape2_ext _ _ _ _ Hd' Hd).
    intros i j Hi Hj.
    rewrite (proj2 (Hfd i j Hi Hj)).
    rewrite (proj2 (Hfd' i j ltac:(lia) ltac:(lia))).
    f_equal. symmetry. by apply Hdamping. }
  assert (roots' = roots) as ->.
  { apply map_eq. intros m. rewrite Hr, Hr', <- Hmodes.
    destruct (decide (m < num_modes t)); [|done].
    unfold mode_roots. by rewrite Hsweep, Hcolumn, Hsteps. }
  exists (sweep t), f, f', d, roots. split; [done|]. by rewrite <- Hsweep.
Qed.

Lemma get_flutter_roots_ignore_other_columns_witness :
  ∃ velocities frequencies frequencies' dampings roots,
    get_flutter t_three_crossings = Ok (velocities, frequencies, dampings, roots) ∧
    get_flutter t_three_crossings_retuned
      = Ok (velocities, frequencies', dampings, roots).
Proof.
  apply (get_flutter_roots_ignore_other_columns
           t_three_crossings t_three_crossings_retuned).
  - by apply (bool_decide_unpack _).
  - by apply (bool_decide_unpack _).
  - reflexivity.
  - reflexivity.
  - intros mode step Hmode Hstep. simpl in Hmode, Hstep.
    assert (mode = 0) as -> by lia.
    do 5 (destruct step as [|step]; [reflexivity|]). lia.
  - intros step Hstep. simpl in Hstep.
    do 5 (destruct step as [|step]; [reflexivity|]). lia.
Defined.

(** X3: a mode never gets more roots than there are pairs of adjacent flow
    steps: at most [num_steps - 1]. *)
Theorem get_flutter_roots_bounded {num : Type} `{!Arith num} (t : ndarray3 num)
    (m : nat) :
  well_formed t → m < num_modes t →
  ∃ v f d (roots : gmap nat (list num)) (mode_roots : list num),
    get_flutter t = Ok (v, f, d, roots) ∧
    roots !! m = Some mode_roots ∧
    length mode_roots ≤ num_steps t - 1.
Proof.
  intros Hwf Hm. destruct (get_flutter_Ok t Hwf) as (f & d & roots & E & _ & Hr).
  exists (sweep t), f, d, roots, (mode_roots t m).
  split; [done|]. split; [by rewrite Hr, decide_True|].
  unfold mode_roots, crossing_steps. rewrite length_map.
  etrans; [apply length_filter|]. by rewrite length_seq.
Qed.

Lemma get_flutter_roots_bounded_witness :
  ∃ v f d (roots : gmap nat (list float)) (mode_roots : list float),
    get_flutter t_three_crossings = Ok (v, f, d, roots) ∧
    roots !! 0 = Some mode_roots ∧
    length mode_roots ≤ num_steps t_three_crossings - 1.
Proof.
  apply (get_flutter_roots_bounded t_three_crossings 0).
  - by apply (bool_decide_unpack _).
  - simpl. lia.
Defined.

(** X4: in exact arithmetic the root computed at a sign change is the point
    where the straight line through [(velocity[i], damping[i])] and
    [(velocity[i+1], damping[i+1])] is zero. *)
Theorem root_is_zero_of_chord (velocity damping : list Q) (i : nat) :
  sign_change damping i = true →
  (damping !!! i * (velocity !!! (i + 1)%nat - root_at velocity damping i)
   + damping !!! (i + 1)%nat * (root_at velocity damping i - velocity !!! i)
   == 0)%Q.
Proof.
  unfold sign_change, root_at, interpolate. simpl.
  generalize (damping !!! i) (damping !!! (i + 1)) (velocity !!! i)
             (velocity !!! (i + 1)).
  intros fa fb a b Hguard. apply Qltb_lt in Hguard.
  destruct (exact_weight fa fb Hguard) as (Hden & _ & _).
  pose proof (Qmult_div_r fa _ Hden) as Hw.
  set (w := (fa / (fa - fb))%Q) in *. clearbody w.
  transitivity ((b - a) * (fa - (fa - fb) * w))%Q; [ring|].
  rewrite Hw. ring.
Qed.

Lemma root_is_zero_of_chord_witness :
  (([2; -2] : list Q) !!! 0%nat
     * (([10; 20] : list Q) !!! (0 + 1)%nat - root_at [10; 20] [2; -2] 0)
   + ([2; -2] : list Q) !!! (0 + 1)%nat
     * (root_at [10; 20] [2; -2] 0 - ([10; 20] : list Q) !!! 0%nat)
   == 0)%Q.
Proof. apply (root_is_zero_of_chord [10; 20]%Q [2; -2]%Q 0). reflexivity. Defined.

(** ** [write_roots] *)

(** X5: [write_roots] ends without [KeyError] exactly for the root sets whose
    keys are [0 .. n-1], [n] being the number of keys. *)
Theorem write_roots_succeeds_iff (roots : gmap nat (list float)) :
  (write_roots roots).2 = None ↔ dom roots = set_seq 0 (size roots).
Proof.
  split.
  - intros Hrun. destruct (write_roots roots) as [out e] eqn:E.
    simpl in Hrun. subst e. unfold write_roots in E.
    pose proof (write_modes_None _ _ _ _ E) as Hkeys.
    symmetry. apply set_subseteq_size_eq.
    + intros k Hk. apply elem_of_set_seq in Hk. apply elem_of_dom, Hkeys.
      apply list_elem_of_In, in_seq. lia.
    + by rewrite size_set_seq, size_dom.
  - intros Hdom. unfold write_roots. rewrite write_modes_report; [done|].
    intros i Hi. apply list_elem_of_In, in_seq in Hi.
    apply elem_of_dom. rewrite Hdom. apply elem_of_set_seq. lia.
Qed.

(** X6: when the keys [0 .. k-1] are there and the key [k], below the number
    of keys, is missing, [write_roots] raises [KeyError] after it has printed
    and written the lines of the modes below [k], and nothing else. *)
Theorem write_roots_missing_key (roots : gmap nat (list float)) (k : nat) :
  k < size roots → roots !! k = None →
  (∀ i, i < k → is_Some (roots !! i)) →
  write_roots roots
    = ({| printed := omap (mode_line roots) (seq 0 k);
          file := unlines (omap (mode_line roots) (seq 0 k)) |},
       Some KeyError).
Proof.
  intros Hk Hmissing Hbelow. unfold write_roots.
  replace (size roots) with (k + S (size roots - S k)) by lia.
  rewrite seq_app, write_modes_app, write_modes_report.
  - simpl. by rewrite Hmissing.
  - intros i Hi. apply list_elem_of_In, in_seq in Hi. apply Hbelow. lia.
Qed.

Lemma write_roots_missing_key_witness :
  write_roots (<[2 := []]> (<[0 := [15%float]]> ∅))
    = ({| printed := omap (mode_line (<[2 := []]> (<[0 := [15%float]]> ∅))) (seq 0 1);
          file := unlines (omap (mode_line (<[2 := []]> (<[0 := [15%float]]> ∅)))
                                (seq 0 1)) |},
       Some KeyError).
Proof.
  apply (write_roots_missing_key (<[2 := []]> (<[0 := [15%float]]> ∅)) 1).
  - vm_compute. lia.
  - reflexivity.
  - intros i Hi. assert (i = 0) as -> by lia. by eexists.
Defined.

(** X7: the root set of [get_flutter] is always written without [KeyError],
    with one line for each mode that has at least one sign change, by
    increasing mode: never more lines than modes. *)
Theorem write_roots_of_get_flutter (t : ndarray3 float) :
  well_formed t →
  ∃ v f d roots out,
    get_flutter t = Ok (v, f, d, roots) ∧
    write_roots roots = (out, None) ∧
    printed out =
      map (λ m, report_line m (mode_roots t m))
          (filter (λ m, crossing_steps (mode_damping t m) (num_steps t) ≠ [])
                  (seq 0 (num_modes t))) ∧
    file out = unlines (printed out) ∧
    length (printed out) ≤ num_modes t.
Proof.
  intros Hwf. destruct (get_flutter_Ok t Hwf) as (f & d & roots & E & _ & Hr).
  pose proof (roots_described_size roots _ _ Hr) as Hsize.
  assert (report roots =
          map (λ m, report_line m (mode_roots t m))
              (filter (λ m, crossing_steps (mode_damping t m) (num_steps t) ≠ [])
                      (seq 0 (num_modes t)))) as Hreport.
  { unfold report. rewrite Hsize. apply omap_filter_map.
    intros m Hm. apply list_elem_of_In, in_seq in Hm.
    unfold mode_line. rewrite Hr, decide_True by lia. unfold mode_roots.
    destruct (crossing_steps (mode_damping t m) (num_steps t)) as [|i steps];
      by simpl. }
  eexists (sweep t), f, d, roots, _. split; [done|]. split.
  - unfold write_roots. apply write_modes_report. intros i Hi.
    apply list_elem_of_In, in_seq in Hi. rewrite Hr, decide_True by lia. by eexists.
  - simpl. fold (report roots). rewrite Hreport. split; [done|]. split; [done|].
    rewrite length_map. etrans; [apply length_filter|]. by rewrite length_seq.
Qed.

Lemma write_roots_of_get_flutter_witness :
  ∃ v f d roots out,
    get_flutter t_three_crossings = Ok (v, f, d, roots) ∧
    write_roots roots = (out, None) ∧
    printed out =
      map (λ m, report_line m (mode_roots t_three_crossings m))
          (filter (λ m, crossing_steps (mode_damping t_three_crossings m)
                                       (num_steps t_three_crossings) ≠ [])
                  (seq 0 (num_modes t_three_crossings))) ∧
    file out = unlines (printed out) ∧
    length (printed out) ≤ num_modes t_three_crossings.
Proof.
  apply (write_roots_of_get_flutter t_three_crossings).
  by apply (bool_decide_unpack _).
Defined.

(** ** [plot_vg] *)

(** X8: the arrays [get_flutter] returns are plotted without exception for
    every selection of modes of the tensor.  Each axis gets one curve per
    shown mode, in the order of the selection (all modes, by increasing mode,
    when the selection is empty): the damping, respectively the frequency, of
    the mode against the velocities, labelled with the 1-based number of the
    mode; the legend lists these labels. *)
Theorem plot_vg_of_get_flutter {num : Type} `{!Arith num} (t : ndarray3 num)
    (selected : list nat) (name : string) :
  well_formed t → Forall (λ j, j < num_modes t) selected →
  ∃ v f d roots items fig,
    get_flutter t = Ok (v, cells f, cells d, roots) ∧
    get_flutter_items t = Ok (v, f, d, items) ∧
    plot_vg v f d selected name = (fig, None) ∧
    damping_axes fig
      = map (curve_of (sweep t) (mode_damping t))
            (shown_modes (num_modes t) selected) ∧
    frequency_axes fig
      = map (curve_of (sweep t) (mode_frequency t))
            (shown_modes (num_modes t) selected) ∧
    title fig = Some name ∧
    legend fig = Some (map (λ j, decimal (Z.of_nat (j + 1)))
                           (shown_modes (num_modes t) selected)).
Proof.
  intros Hwf Hsel.
  destruct (get_flutter_items_Ok t Hwf) as (f & d & roots & E & Eitems & Hf & Hd & Hcol & _).
  eexists (sweep t),
    {| n_rows := num_steps t; n_cols := num_modes t; cells := f |},
    {| n_rows := num_steps t; n_cols := num_modes t; cells := d |},
    roots, _, _.
  split; [exact E|]. split; [exact Eitems|].
  assert (Forall (λ j, j < num_modes t) (shown_modes (num_modes t) selected))
    as Hshown.
  { destruct selected; [|done]. simpl. apply Forall_seq. lia. }
  split; [apply plot_vg_in_range; (done || apply length_sweep)|].
  simpl. split; [|split; [|done]].
  - apply map_ext_in. intros j Hj.
    rewrite Forall_forall in Hshown. apply list_elem_of_In, Hshown in Hj.
    unfold curve_of. f_equal. rewrite plotted_column by done. by apply Hcol.
  - apply map_ext_in. intros j Hj.
    rewrite Forall_forall in Hshown. apply list_elem_of_In, Hshown in Hj.
    unfold curve_of. f_equal. rewrite plotted_column by done. by apply Hcol.
Qed.

Lemma plot_vg_of_get_flutter_witness :
  ∃ v f d roots items fig,
    get_flutter t_two_sweeps = Ok (v, cells f, cells d, roots) ∧
    get_flutter_items t_two_sweeps = Ok (v, f, d, items) ∧
    plot_vg v f d [1] "wing.f06" = (fig, None) ∧
    damping_axes fig
      = map (curve_of (sweep t_two_sweeps) (mode_damping t_two_sweeps))
            (shown_modes (num_modes t_two_sweeps) [1]) ∧
    frequency_axes fig
      = map (curve_of (sweep t_two_sweeps) (mode_frequency t_two_sweeps))
            (shown_modes (num_modes t_two_sweeps) [1]) ∧
    title fig = Some "wing.f06"%string ∧
    legend fig = Some (map (λ j, decimal (Z.of_nat (j + 1)))
                           (shown_modes (num_modes t_two_sweeps) [1])).
Proof.
  apply (plot_vg_of_get_flutter t_two_sweeps [1] "wing.f06").
  - by apply (bool_decide_unpack _).
  - repeat constructor.
Defined.

(** X9: a selected mode that is not a column of the arrays makes [plot_vg]
    raise [IndexError]; what is left is a figure with the damping curves of
    the modes selected before it, and no frequency curve, no title and no
    legend. *)
Theorem plot_vg_unknown_mode {num : Type} (flow : list num)
    (freqs deltas : ndarray2 num) (l1 l2 : list nat) (j : nat) (name : string) :
  regular2 deltas → length flow = n_rows deltas →
  Forall (λ j, j < n_cols deltas) l1 → n_cols deltas ≤ j →
  plot_vg flow freqs deltas (l1 ++ j :: l2) name
    = ({| damping_axes := map (curve_of flow (plotted deltas)) l1;
          frequency_axes := [];
          title := None;
          legend := None |}, Some (Builtin IndexError)).
Proof. apply plot_vg_out_of_range. Qed.

Lemma plot_vg_unknown_mode_witness :
  plot_vg [10; 20]%float a_two_by_two a_two_by_two ([0] ++ 9 :: [1]) "wing.f06"
    = ({| damping_axes := map (curve_of [10; 20]%float (plotted a_two_by_two)) [0];
          frequency_axes := [];
          title := None;
          legend := None |}, Some (Builtin IndexError)).
Proof.
  apply (plot_vg_unknown_mode [10; 20]%float a_two_by_two a_two_by_two [0] [1] 9).
  - by apply (bool_decide_unpack _).
  - reflexivity.
  - repeat constructor.
  - simpl. lia.
Defined.

(** ** [FileTab] *)

(** X10: on a tab that holds the results of a file, a selection of modes of
    the file is always plotted: [set_modes] raises nothing, stores the
    selection, draws the curves of the selected modes (of all modes for the
    empty selection) under the name of the file, and names the 1-based modes
    in the mode label; cache and results label are left as they are. *)
Theorem set_modes_replots (tab : FileTab) (t : ndarray3 float) (selected : list nat) :
  well_formed t → holds_results tab t →
  Forall (λ j, j < num_modes t) selected →
  set_modes tab selected
    = ({| file_name := file_name tab; modes := selected;
          result_cache := result_cache tab;
          canvas := figure_of t (shown_modes (num_modes t) selected) (file_name tab);
          results_label := results_label tab;
          mode_label :=
            match selected with
            | [] => "Показаны все моды"
            | _ :: _ =>
                ("Показаны моды: "
                 ++ String.concat ", "
                      (map (λ m, decimal (Z.of_nat (m + 1))) selected))%string
            end |}, None).
Proof. apply set_modes_Ok. Qed.

Lemma set_modes_replots_witness :
  set_modes tab_wing [1; 0]
    = ({| file_name := file_name tab_wing; modes := [1; 0];
          result_cache := result_cache tab_wing;
          canvas := figure_of t_second_mode_flutters
                      (shown_modes (num_modes t_second_mode_flutters) [1; 0])
                      (file_name tab_wing);
          results_label := results_label tab_wing;
          mode_label := "Показаны моды: 2, 1" |}, None).
Proof.
  apply (set_modes_replots tab_wing t_second_mode_flutters [1; 0]).
  - by apply (bool_decide_unpack _).
  - eexists. split; vm_compute; reflexivity.
  - repeat constructor.
Defined.

(** X11: without exception [analyze_file] lists in the results label the
    modes that [write_roots] reports for the same response, in the same
    order and with the same roots in the same format.  A line of the label
    is the line of the report but for the blank that pads a mode number of
    one digit in the report. *)
Theorem analyze_file_lists_report_modes (tab : FileTab) (t : ndarray3 float) :
  well_formed t → Forall (λ j, j < num_modes t) (modes tab) →
  ∃ tab' v f d roots out,
    analyze_file tab t = (tab', None) ∧
    results_label tab'
      = ("Flutter Roots:" ++ newline
         ++ unlines (map (λ m, "Mode " ++ line_body m (mode_roots t m))
                         (modes_with_roots t)))%string ∧
    get_flutter t = Ok (v, f, d, roots) ∧
    write_roots roots = (out, None) ∧
    printed out
      = map (λ m, "Mode " ++ (if (m <? 9)%nat then " " else "")
                   ++ line_body m (mode_roots t m))%string
            (modes_with_roots t).
Proof.
  intros Hwf Hsel.
  destruct (analyze_file_Ok tab t Hwf Hsel) as (r & _ & Ea).
  destruct (get_flutter_Ok t Hwf) as (f & d & roots & E & _ & Hr).
  eexists _, _, _, _, roots, _.
  split; [exact Ea|]. split; [done|]. split; [exact E|].
  split; [apply (report_of_roots t roots Hr)|].
  simpl. apply map_ext. intros m. apply report_line_gui_line.
Qed.

Lemma analyze_file_lists_report_modes_witness :
  ∃ tab' v f d roots out,
    analyze_file (new_tab "wing.f06") t_second_mode_flutters = (tab', None) ∧
    results_label tab'
      = ("Flutter Roots:" ++ newline
         ++ unlines (map (λ m, "Mode "
                               ++ line_body m (mode_roots t_second_mode_flutters m))
                         (modes_with_roots t_second_mode_flutters)))%string ∧
    get_flutter t_second_mode_flutters = Ok (v, f, d, roots) ∧
    write_roots roots = (out, None) ∧
    printed out
      = map (λ m, "Mode " ++ (if (m <? 9)%nat then " " else "")
                   ++ line_body m (mode_roots t_second_mode_flutters m))%string
            (modes_with_roots t_second_mode_flutters).
Proof.
  apply (analyze_file_lists_report_modes (new_tab "wing.f06") t_second_mode_flutters).
  - by apply (bool_decide_unpack _).
  - constructor.
Defined.

(** X12: when a selected mode is not a mode of the file, [analyze_file]
    ends in the [IndexError] of the plot: the cache holds the new results,
    but the results label keeps its old text, and the canvas is left with
    the damping curves of the modes selected before the unknown one. *)
Theorem analyze_file_unknown_mode (tab : FileTab) (t : ndarray3 float)
    (l1 l2 : list nat) (j : nat) :
  well_formed t → modes tab = l1 ++ j :: l2 →
  Forall (λ j, j < num_modes t) l1 → num_modes t ≤ j →
  ∃ tab',
    analyze_file tab t = (tab', Some (Builtin IndexError)) ∧
    holds_results tab' t ∧
    results_label tab' = results_label tab ∧
    mode_label tab' = mode_label tab ∧
    modes tab' = modes tab ∧
    canvas tab' = broken_figure_of t l1.
Proof.
  intros Hwf Hmodes Hl Hj.
  destruct (analyze_file_unknown tab t l1 l2 j Hwf Hmodes Hl Hj) as (r & Er & ->).
  eexists. split; [done|]. simpl. split; [by exists r|done].
Qed.

Lemma analyze_file_unknown_mode_witness :
  ∃ tab',
    analyze_file (set_modes tab_wing [0; 7; 1]).1 t_second_mode_flutters
      = (tab', Some (Builtin IndexError)) ∧
    holds_results tab' t_second_mode_flutters ∧
    results_label tab' = results_label (set_modes tab_wing [0; 7; 1]).1 ∧
    mode_label tab' = mode_label (set_modes tab_wing [0; 7; 1]).1 ∧
    modes tab' = modes (set_modes tab_wing [0; 7; 1]).1 ∧
    canvas tab' = broken_figure_of t_second_mode_flutters [0].
Proof.
  apply (analyze_file_unknown_mode (set_modes tab_wing [0; 7; 1]).1
           t_second_mode_flutters [0] [1] 7).
  - by apply (bool_decide_unpack _).
  - vm_compute. reflexivity.
  - repeat constructor.
  - simpl. lia.
Defined.

(** X13: a response with fewer than five columns leaves the tab as it was:
    [analyze_file] shows the [IndexError] of [get_flutter] and changes
    neither cache nor canvas nor labels. *)
Theorem analyze_file_too_few_columns (tab : FileTab) (t : ndarray3 float) :
  regular t → 0 < num_modes t → 0 < num_steps t → num_columns t ≤ 4 →
  analyze_file tab t = (tab, Some (Builtin IndexError)).
Proof.
  intros Hreg Hmodes Hsteps Hcols. unfold analyze_file, get_flutter_items.
  by rewrite (reduce_results_too_few_columns t Hreg Hmodes Hsteps Hcols).
Qed.

Lemma analyze_file_too_few_columns_witness :
  analyze_file tab_wing t_three_columns = (tab_wing, Some (Builtin IndexError)).
Proof.
  apply (analyze_file_too_few_columns tab_wing t_three_columns).
  - by apply (bool_decide_unpack _).
  - simpl. lia.
  - simpl. lia.
  - simpl. lia.
Defined.

(** X14: whatever is done to the tab of a file whose response stays the
    same (analysing it again, setting any selection of modes, known to the
    file or not), the tab keeps the name of the file, holds the results of
    the response, shows their roots in the results label, and has on its
    canvas the plot of its current selection, complete or broken at the
    first unknown mode; the mode label names the current selection whenever
    all its modes are modes of the file. *)
Theorem tab_of_file_invariant (t : ndarray3 float) (name : string) (tab : FileTab) :
  well_formed t → tab_of t name tab →
  file_name tab = name ∧ holds_results tab t ∧ results_label tab = results_of t ∧
  canvas_of_modes t tab ∧
  (Forall (λ j, j < num_modes t) (modes tab) → mode_label tab = mode_text (modes tab)).
Proof.
  intros Hwf Htab. change (tab_inv t name tab).
  induction Htab as [|tab tab' _ IH Hstep].
  - by apply tab_inv_new.
  - by apply (tab_inv_step t name tab tab').
Qed.

Lemma tab_of_file_invariant_witness :
  file_name (set_modes tab_wing [7]).1 = "wing.f06"%string ∧
  holds_results (set_modes tab_wing [7]).1 t_second_mode_flutters ∧
  results_label (set_modes tab_wing [7]).1 = results_of t_second_mode_flutters ∧
  canvas_of_modes t_second_mode_flutters (set_modes tab_wing [7]).1 ∧
  (Forall (λ j, j < num_modes t_second_mode_flutters) (modes (set_modes tab_wing [7]).1) →
   mode_label (set_modes tab_wing [7]).1 = mode_text (modes (set_modes tab_wing [7]).1)).
Proof.
  apply (tab_of_file_invariant t_second_mode_flutters "wing.f06").
  - by apply (bool_decide_unpack _).
  - apply (tab_next _ _ tab_wing); [apply tab_new|apply step_set_modes].
Defined.

(** ** The mode menu *)

(** X15: with its ten check marks, [set_all_modes] sets the mark of the
    entry and hands to the current tab the marked modes in increasing
    order, whatever the order in which the entries were used: the mode of
    the entry is among them exactly when it was checked, any other mode
    exactly when it was before. *)
Theorem set_all_modes_selection (self : FlutterAnalyzer) (mode : nat) (checked : bool) :
  length (checked_modes self) = 10 → mode < 10 →
  set_all_modes self mode checked
    = set_modes_for_current_tab
        {| checked_modes := <[mode := checked]> (checked_modes self);
           current_tab := current_tab self |}
        (checked_indices (<[mode := checked]> (checked_modes self))) ∧
  StronglySorted lt (checked_indices (<[mode := checked]> (checked_modes self))) ∧
  (mode ∈ checked_indices (<[mode := checked]> (checked_modes self))
   ↔ checked = true) ∧
  (∀ i, i ≠ mode →
        i ∈ checked_indices (<[mode := checked]> (checked_modes self))
        ↔ i ∈ checked_indices (checked_modes self)).
Proof.
  intros Hlen Hmode.
  assert (length (<[mode := checked]> (checked_modes self)) = 10) as Hlen'
    by (by rewrite length_insert).
  split; [|split; [apply checked_indices_sorted|split]].
  - unfold set_all_modes. rewrite setitem_Ok by lia.
    by rewrite curr_modes_of_Ok.
  - rewrite elem_of_checked_indices by done.
    rewrite list_lookup_insert_eq by lia. split; congruence.
  - intros i Hi. rewrite !elem_of_checked_indices by done.
    by rewrite list_lookup_insert_ne.
Qed.

Lemma set_all_modes_selection_witness :
  set_all_modes (new_window (Some tab_wing)) 1 true
    = set_modes_for_current_tab
        {| checked_modes := <[1 := true]> (checked_modes (new_window (Some tab_wing)));
           current_tab := current_tab (new_window (Some tab_wing)) |}
        (checked_indices (<[1 := true]> (checked_modes (new_window (Some tab_wing))))) ∧
  StronglySorted lt
    (checked_indices (<[1 := true]> (checked_modes (new_window (Some tab_wing))))) ∧
  (1 ∈ checked_indices (<[1 := true]> (checked_modes (new_window (Some tab_wing))))
   ↔ true = true) ∧
  (∀ i, i ≠ 1 →
        i ∈ checked_indices (<[1 := true]> (checked_modes (new_window (Some tab_wing))))
        ↔ i ∈ checked_indices (checked_modes (new_window (Some tab_wing)))).
Proof.
  apply (set_all_modes_selection (new_window (Some tab_wing)) 1 true).
  - reflexivity.
  - lia.
Defined.

(** X16: the menu always offers ten modes.  Checking an entry whose mode
    the file of the current tab has not makes [set_all_modes] end in
    [IndexError]: the mark stays set, the tab keeps the selection with the
    unknown mode, its canvas is left with the damping curves of the marked
    modes of the file only, and its mode label is not updated. *)
Theorem set_all_modes_unknown_mode (self : FlutterAnalyzer) (tab : FileTab)
    (t : ndarray3 float) (mode : nat) :
  length (checked_modes self) = 10 → current_tab self = Some tab →
  well_formed t → holds_results tab t →
  num_modes t ≤ mode → mode < 10 →
  set_all_modes self mode true
    = ({| checked_modes := <[mode := true]> (checked_modes self);
          current_tab := Some
            {| file_name := file_name tab;
               modes := checked_indices (<[mode := true]> (checked_modes self));
               result_cache := result_cache tab;
               canvas := broken_figure_of t
                 (filter (λ i, i < num_modes t)
                         (checked_indices (<[mode := true]> (checked_modes self))));
               results_label := results_label tab;
               mode_label := mode_label tab |} |},
       Some (Builtin IndexError)) ∧
  mode ∈ checked_indices (<[mode := true]> (checked_modes self)).
Proof.
  intros Hlen Htab Hwf Hres Hge Hlt.
  assert (length (<[mode := true]> (checked_modes self)) = 10) as Hlen'
    by (by rewrite length_insert).
  assert (<[mode := true]> (checked_modes self) !! mode = Some true) as Hset
    by (by rewrite list_lookup_insert_eq by lia).
  split; [|by apply elem_of_checked_indices].
  destruct (checked_indices_unknown _ (num_modes t) mode Hlen' Hge Hset)
    as (j & l2 & Hsplit & Hj).
  unfold set_all_modes. rewrite setitem_Ok by lia.
  rewrite curr_modes_of_Ok by done.
  unfold set_modes_for_current_tab. cbn [current_tab checked_modes]. rewrite Htab.
  rewrite Hsplit at 1.
  rewrite (set_modes_unknown tab t _ l2 j Hwf Hres); [| |done].
  - by rewrite <- Hsplit.
  - apply Forall_forall. intros k Hk. by apply list_elem_of_filter in Hk as [Hk _].
Qed.

Lemma set_all_modes_unknown_mode_witness :
  set_all_modes (new_window (Some tab_wing)) 4 true
    = ({| checked_modes := <[4 := true]> (checked_modes (new_window (Some tab_wing)));
          current_tab := Some
            {| file_name := file_name tab_wing;
               modes := checked_indices
                          (<[4 := true]> (checked_modes (new_window (Some tab_wing))));
               result_cache := result_cache tab_wing;
               canvas := broken_figure_of t_second_mode_flutters
                 (filter (λ i, i < num_modes t_second_mode_flutters)
                         (checked_indices
                            (<[4 := true]> (checked_modes (new_window (Some tab_wing))))));
               results_label := results_label tab_wing;
               mode_label := mode_label tab_wing |} |},
       Some (Builtin IndexError)) ∧
  4 ∈ checked_indices (<[4 := true]> (checked_modes (new_window (Some tab_wing)))).
Proof.
  apply (set_all_modes_unknown_mode (new_window (Some tab_wing)) tab_wing
           t_second_mode_flutters 4).
  - reflexivity.
  - reflexivity.
  - by apply (bool_decide_unpack _).
  - eexists. split; vm_compute; reflexivity.
  - simpl. lia.
  - lia.
Defined.

(** X17: unchecking the only mark that is set gives the empty selection,
    which shows all modes of the file: the tab plots every mode, by
    increasing mode, and its label says that all modes are shown.  This
    holds also when the mark was that of a mode the file has not. *)
Theorem set_all_modes_last_unchecked (self : FlutterAnalyzer) (tab : FileTab)
    (t : ndarray3 float) (mode : nat) :
  length (checked_modes self) = 10 → mode < 10 →
  current_tab self = Some tab → well_formed t → holds_results tab t →
  (∀ i, checked_modes self !! i = Some true → i = mode) →
  set_all_modes self mode false
    = ({| checked_modes := <[mode := false]> (checked_modes self);
          current_tab := Some
            {| file_name := file_name tab; modes := [];
               result_cache := result_cache tab;
               canvas := figure_of t (seq 0 (num_modes t)) (file_name tab);
               results_label := results_label tab;
               mode_label := "Показаны все моды" |} |}, None).
Proof.
  intros Hlen Hlt Htab Hwf Hres Honly.
  unfold set_all_modes. rewrite setitem_Ok by lia.
  rewrite curr_modes_of_Ok by (by rewrite length_insert).
  rewrite (checked_indices_none _ _ Honly).
  unfold set_modes_for_current_tab. cbn [current_tab checked_modes]. rewrite Htab.
  by rewrite (set_modes_Ok tab t [] Hwf Hres) by constructor.
Qed.

Lemma set_all_modes_last_unchecked_witness :
  set_all_modes (set_all_modes (new_window (Some tab_wing)) 4 true).1 4 false
    = ({| checked_modes :=
            <[4 := false]>
              (checked_modes (set_all_modes (new_window (Some tab_wing)) 4 true).1);
          current_tab := Some
            {| file_name := file_name (set_modes tab_wing [4]).1; modes := [];
               result_cache := result_cache (set_modes tab_wing [4]).1;
               canvas := figure_of t_second_mode_flutters
                           (seq 0 (num_modes t_second_mode_flutters))
                           (file_name (set_modes tab_wing [4]).1);
               results_label := results_label (set_modes tab_wing [4]).1;
               mode_label := "Показаны все моды" |} |}, None).
Proof.
  apply (set_all_modes_last_unchecked
           (set_all_modes (new_window (Some tab_wing)) 4 true).1
           (set_modes tab_wing [4]).1 t_second_mode_flutters 4).
  - reflexivity.
  - lia.
  - vm_compute. reflexivity.
  - by apply (bool_decide_unpack _).
  - eexists. split; vm_compute; reflexivity.
  - intros i Hi. vm_compute in Hi.
    do 10 (destruct i as [|i]; [by (discriminate || reflexivity)|]).
    destruct i; discriminate.
Defined.

(** ** The root dictionary and the file names *)

(** X18: the dictionary of roots lists its items by increasing mode, one
    item for each mode of the tensor, so that reading its items, as the
    results label does, visits the modes in the order in which the report
    visits them; its items are those of the root set, key by key. *)
Theorem get_flutter_items_by_mode {num : Type} `{!Arith num} (t : ndarray3 num) :
  well_formed t →
  ∃ v f d roots items,
    get_flutter_items t = Ok (v, f, d, items) ∧
    get_flutter t = Ok (v, cells f, cells d, roots) ∧
    map fst items = seq 0 (num_modes t) ∧
    (∀ m values, (m, values) ∈ items ↔ roots !! m = Some values) ∧
    n_rows f = num_steps t ∧ n_cols f = num_modes t ∧
    n_rows d = num_steps t ∧ n_cols d = num_modes t.
Proof.
  intros Hwf.
  destruct (get_flutter_items_Ok t Hwf) as (f & d & roots & E & Ei & _ & _ & _ & Hr).
  eexists _, _, _, roots, _. split; [exact Ei|]. split; [exact E|].
  split; [|split; [|done]].
  - rewrite map_map. simpl. apply map_id.
  - intros m values. rewrite Hr, list_elem_of_In, in_map_iff. split.
    + intros (k & [= -> <-] & Hk). apply in_seq in Hk.
      by rewrite decide_True by lia.
    + destruct (decide (m < num_modes t)) as [Hm|Hm]; [|done].
      intros [= <-]. exists m. split; [done|]. apply in_seq. lia.
Qed.

Lemma get_flutter_items_by_mode_witness :
  ∃ v f d roots items,
    get_flutter_items t_second_mode_flutters = Ok (v, f, d, items) ∧
    get_flutter t_second_mode_flutters = Ok (v, cells f, cells d, roots) ∧
    map fst items = seq 0 (num_modes t_second_mode_flutters) ∧
    (∀ m values, (m, values) ∈ items ↔ roots !! m = Some values) ∧
    n_rows f = num_steps t_second_mode_flutters ∧
    n_cols f = num_modes t_second_mode_flutters ∧
    n_rows d = num_steps t_second_mode_flutters ∧
    n_cols d = num_modes t_second_mode_flutters.
Proof.
  apply (get_flutter_items_by_mode t_second_mode_flutters).
  by apply (bool_decide_unpack _).
Defined.

(** X19: a file is analysed exactly when its name ends in a dot, the letter
    f in either case, and the digits 06: the test accepts [.f06] and [.F06]
    after any stem, the empty one too, and nothing else. *)
Theorem is_f06_iff (name : string) :
  is_f06 name = true
  ↔ ∃ stem e, name = (stem ++ String "." (String e "06"))%string
              ∧ (e = "f"%char ∨ e = "F"%char).
Proof.
  unfold is_f06, endswith. rewrite bool_decide_eq_true, list_ascii_of_lower.
  split.
  - intros [k Hk]. simpl in Hk.
    apply map_eq_app in Hk as (l1 & l2 & Hname & _ & Hl2).
    destruct l2 as [|a [|b [|c [|d [|? ?]]]]]; try discriminate Hl2.
    injection Hl2 as Ha Hb Hc Hd.
    apply ascii_lower_dot in Ha as ->. apply ascii_lower_0 in Hc as ->.
    apply ascii_lower_6 in Hd as ->. apply ascii_lower_f in Hb.
    exists (string_of_list_ascii l1), b. split; [|done].
    rewrite <- (string_of_list_ascii_of_string name), Hname.
    by rewrite string_of_list_ascii_app.
  - intros (stem & e & -> & He).
    exists (map ascii_lower (list_ascii_of_string stem)).
    rewrite list_ascii_of_string_app, map_app. f_equal. simpl.
    by destruct He as [-> | ->].
Qed.

(** ** Roots along the sweep *)

(** X20: in exact arithmetic, when the velocities [get_flutter] returns
    increase from each flow step to the next, the roots of every mode are
    listed in strictly increasing order. *)
Theorem roots_increase_with_sweep (t : ndarray3 Q) (m : nat) :
  well_formed t → m < num_modes t →
  (∀ i, i + 1 < num_steps t → (sweep t !!! i < sweep t !!! (i + 1)%nat)%Q) →
  ∃ v f d (roots : gmap nat (list Q)) (values : list Q),
    get_flutter t = Ok (v, f, d, roots) ∧
    roots !! m = Some values ∧
    StronglySorted Qlt values.
Proof.
  intros Hwf Hm Hstep.
  destruct (get_flutter_Ok t Hwf) as (f & d & roots & E & _ & Hr).
  exists (sweep t), f, d, roots, (mode_roots t m).
  split; [done|]. split; [by rewrite Hr, decide_True|].
  unfold mode_roots. apply (exact_roots_sorted _ _ (num_steps t)); [done| |].
  - apply StronglySorted_filter, StronglySorted_seq.
  - intros i Hi. unfold crossing_steps in Hi.
    apply list_elem_of_filter in Hi as [Hg Hi]. apply elem_of_seq in Hi.
    split; [lia|done].
Qed.

Lemma roots_increase_with_sweep_witness :
  ∃ v f d (roots : gmap nat (list Q)) (values : list Q),
    get_flutter t_three_crossings_exact = Ok (v, f, d, roots) ∧
    roots !! 0 = Some values ∧
    StronglySorted Qlt values.
Proof.
  apply (roots_increase_with_sweep t_three_crossings_exact 0).
  - by apply (bool_decide_unpack _).
  - simpl. lia.
  - intros i Hi. simpl in Hi.
    do 4 (destruct i as [|i]; [reflexivity|]). lia.
Defined.
